(** * Henhouse monitor: a shallow embedding of [main.py]

    The script loads a detection model once, then loops forever: load an
    image, run the detector, count the boxes per class name, publish the egg
    and chicken counts to two MQTT sensors, sleep.  Everything the script
    touches outside Python (the detector, the broker, the file system, HTTP,
    the clock, signals) is an oracle of the [World]; every call the script
    makes to it, and every logging call, is recorded in a trace of [event]s.
    Python exceptions are values of [exn]; a computation is a trace together
    with either a value or the exception that escaped it. *)

From stdpp Require Import gmap strings list fin_maps.
From Stdlib Require Import ZArith.

Open Scope string_scope.
Open Scope list_scope.

(** ** Python exceptions *)

(** A dictionary key as it shows up in a [KeyError]. *)
Inductive pykey :=
| KStr (s : string)
| KInt (z : Z).

(** The exceptions the script can meet.  All but the last two derive from
    Python's [Exception]; [KeyboardInterrupt] and [SystemExit] derive from
    [BaseException] only, so an [except Exception] clause lets them through. *)
Inductive exn :=
| TypeError (msg : string)
| KeyError (key : pykey)
| IndexError (msg : string)
| HTTPError (status : Z)
| LibraryError (cls msg : string)
| KeyboardInterrupt
| SystemExit.

Definition is_Exception (e : exn) : bool :=
  match e with
  | KeyboardInterrupt | SystemExit => false
  | _ => true
  end.

(** ** Data model *)

Record MQTT := {
  host : string;
  port : Z;
  username : option string;
  password : option string;
  tls : bool }.

Record DeviceInfo := {
  dev_name : string;
  identifiers : list string;
  manufacturer : string;
  dev_model : string }.

Record SensorInfo := {
  name : string;
  unique_id : string;
  unit_of_measurement : option string;
  icon : string;
  device : DeviceInfo }.

Record Settings := {
  mqtt : MQTT;
  entity : SensorInfo }.

(** A sensor handle is the object built from its settings. *)
Record Sensor := { sensor_settings : Settings }.

(** The handle returned by [YOLO(path, task=...)]. *)
Record YOLO := {
  weights : string;
  task : string }.

(** A decoded image; only its size is looked at. *)
Record Image := { size : Z * Z }.

(** An HTTP response: the status decides [raise_for_status]. *)
Record Response := { status_code : Z }.

(** One element of the list [model.predict] returns: the class table
    [names] (class id to class name) and, for each box, [int(box.cls)]. *)
Record Results := {
  names : gmap Z string;
  boxes : list Z }.

(** The module-level configuration, read from the environment at import. *)
Record Config := {
  MQTT_HOST : string;
  MQTT_PORT : Z;
  MQTT_USERNAME : string;
  MQTT_PASSWORD : string;
  MQTT_USE_TLS : bool;
  IMAGE_SOURCE : string;
  IMAGE_URL : string;
  IMAGE_FILE : string }.

Definition DETECTION_INTERVAL : Z := 900%Z.

(** ** Events *)

Inductive level := DEBUG | INFO | WARNING | ERROR.

(** The log records of the script, one constructor per logging call, with
    the values its f-string interpolates. *)
Inductive message :=
| MStarting
| MLoadingModel
| MModelLoaded
| MFailedLoadModel (e : exn)
| MInitialMemory (rss : Z)
| MFailedInitModel (e : exn)
| MSensorsInitialized
| MMqttEnabled
| MFailedInitMqtt (e : exn)
| MContinuingWithoutMqtt
| MStartingMonitoring (interval : Z)
| MStartingCycle (cycle_count : nat) (rss : Z)
| MLoadingFromUrl (url : string)
| MLoadingFromFile (path : string)
| MImageLoaded (sz : Z * Z)
| MFailedLoadImage (e : exn)
| MStartingDetection
| MPublished (eggs chickens : nat)
| MFailedPublish (e : exn)
| MDetectionFailed (e : exn)
| MFailedPublishZero (e : exn)
| MMemoryAfterGC (cycle_count : nat) (rss : Z)
| MInterrupt
| MErrorInCycle (e : exn)
| MContinuingNextCycle
| MWaiting (interval : Z)
| MShutdownCompleted.

Inductive handler := StreamHandler.

Inductive event :=
| EvLog (lv : level) (m : message)
| EvYoloLoad (path tsk : string)
| EvMemoryInfo
| EvSensorNew (s : Settings)
| EvSetState (s : Sensor) (v : nat)
| EvHttpGet (url : string) (timeout : Z)
| EvImageOpenRaw (r : Response)
| EvImageOpenFile (path : string)
| EvPredict (img : Image) (dev : string)
| EvPrintExc
| EvGcCollect
| EvSleep (secs : Z)
| EvFlush (h : handler).

(** ** The world *)

Inductive result (A : Type) :=
| Ok (a : A)
| Raise (e : exn).
Arguments Ok {A} a.
Arguments Raise {A} e.

(** What the outside answers during one iteration of the loop. *)
Record CycleEnv := {
  rss_at_start : result Z;
  http_get : string -> result Response;
  image_open_raw : Response -> result Image;
  image_open_file : string -> result Image;
  yolo_predict : YOLO -> Image -> result (list Results);
  set_state : Sensor -> nat -> result unit;
  gc_collect : result unit;
  rss_after_gc : result Z;
  sleep : result unit }.

Record World := {
  yolo_load : result YOLO;
  rss_initial : result Z;
  sensor_new : Settings -> result unit;
  cycle_env : nat -> CycleEnv }.

(** ** Computations: a trace and a result *)

Definition M (A : Type) : Type := list event * result A.

Definition ret {A} (a : A) : M A := ([], Ok a).

Definition bind {A B} (m : M A) (f : A -> M B) : M B :=
  match m with
  | (t, Ok a) => let '(t', r) := f a in (t ++ t', r)
  | (t, Raise e) => (t, Raise e)
  end.

Notation "x <- c ;; k" := (bind c (fun x => k))
  (at level 100, c at next level, right associativity, only parsing).
Notation "c ;;; k" := (bind c (fun _ => k))
  (at level 100, right associativity, only parsing).

Definition raise {A} (e : exn) : M A := ([], Raise e).

(** A call to the outside: recorded, then answered by the oracle. *)
Definition call {A} (ev : event) (o : result A) : M A := ([ev], o).

Definition log (lv : level) (m : message) : M unit := ([EvLog lv m], Ok tt).

(** [try: body except ...]: the clauses are a partial function on the
    exception; [None] means no clause matches and the exception goes on. *)
Definition try_except {A} (body : M A) (clauses : exn -> option (M A)) : M A :=
  match body with
  | (t, Ok a) => (t, Ok a)
  | (t, Raise e) =>
      match clauses e with
      | Some h => let '(t', r) := h in (t ++ t', r)
      | None => (t, Raise e)
      end
  end.

(** The single clause [except Exception as e: h e]. *)
Definition except_Exception {A} (h : exn -> M A) (e : exn) : option (M A) :=
  if is_Exception e then Some (h e) else None.

Definition trace {A} (m : M A) : list event := fst m.
Definition outcome {A} (m : M A) : result A := snd m.

(** ** publish_counts_to_mqtt *)

(** [sensors[k]] where [sensors] may be [None]. *)
Definition subscript_sensors (sensors : option (gmap string Sensor)) (k : string)
  : M Sensor :=
  match sensors with
  | None => raise (TypeError "'NoneType' object is not subscriptable")
  | Some d =>
      match d !! k with
      | Some s => ret s
      | None => raise (KeyError (KStr k))
      end
  end.

(** [counts[k]]. *)
Definition subscript_counts (counts : gmap string nat) (k : string) : M nat :=
  match counts !! k with
  | Some v => ret v
  | None => raise (KeyError (KStr k))
  end.

Definition publish_counts_to_mqtt (env : CycleEnv)
    (sensors : option (gmap string Sensor)) (counts : gmap string nat) : M unit :=
  try_except
    (s <- subscript_sensors sensors "eggs";;
     v <- subscript_counts counts "egg";;
     call (EvSetState s v) (set_state env s v);;;
     s <- subscript_sensors sensors "chickens";;
     v <- subscript_counts counts "chicken";;
     call (EvSetState s v) (set_state env s v);;;
     eggs <- subscript_counts counts "egg";;
     chickens <- subscript_counts counts "chicken";;
     log INFO (MPublished eggs chickens))
    (except_Exception (fun e => log ERROR (MFailedPublish e))).

(** ** load_image *)

(** [response.raise_for_status()]: client and server error codes raise. *)
Definition raise_for_status (r : Response) : M unit :=
  if ((400 <=? status_code r) && (status_code r <? 600))%Z
  then raise (HTTPError (status_code r))
  else ret tt.

Definition load_image (cfg : Config) (env : CycleEnv) : M Image :=
  try_except
    (image <-
       (if String.eqb (IMAGE_SOURCE cfg) "url" then
          log DEBUG (MLoadingFromUrl (IMAGE_URL cfg));;;
          response <- call (EvHttpGet (IMAGE_URL cfg) 50%Z) (http_get env (IMAGE_URL cfg));;
          raise_for_status response;;;
          call (EvImageOpenRaw response) (image_open_raw env response)
        else
          log DEBUG (MLoadingFromFile (IMAGE_FILE cfg));;;
          call (EvImageOpenFile (IMAGE_FILE cfg)) (image_open_file env (IMAGE_FILE cfg)));;
     log DEBUG (MImageLoaded (size image));;;
     ret image)
    (except_Exception (fun e => log ERROR (MFailedLoadImage e);;; raise e)).

(** ** load_model *)

Definition load_model (w : World) : M YOLO :=
  try_except
    (log INFO MLoadingModel;;;
     model <- call (EvYoloLoad "models/henhouse.onnx" "detect") (yolo_load w);;
     log INFO MModelLoaded;;;
     ret model)
    (except_Exception (fun e => log ERROR (MFailedLoadModel e);;; raise e)).

(** ** perform_detection *)

(** [{name: 0 for name in result.names.values()}]. *)
Definition zero_for_names (nms : gmap Z string) : gmap string nat :=
  list_to_map ((fun kv : Z * string => (kv.2, 0)) <$> map_to_list nms).

(** The [for box in result.boxes] loop; both subscripts can raise. *)
Fixpoint count_boxes (nms : gmap Z string) (bxs : list Z)
    (counts : gmap string nat) : M (gmap string nat) :=
  match bxs with
  | [] => ret counts
  | class_id :: rest =>
      match nms !! class_id with
      | None => raise (KeyError (KInt class_id))
      | Some class_name =>
          match counts !! class_name with
          | None => raise (KeyError (KStr class_name))
          | Some c => count_boxes nms rest (<[class_name := S c]> counts)
          end
      end
  end.

(** [xs[0]] on a list. *)
Definition first_result (xs : list Results) : M Results :=
  match xs with
  | r :: _ => ret r
  | [] => raise (IndexError "list index out of range")
  end.

(** The body of the [try] of [perform_detection]. *)
Definition detection_body (env : CycleEnv) (model : YOLO) (image : Image)
    (mqtt_sensors : option (gmap string Sensor)) : M (gmap string nat) :=
  log DEBUG MStartingDetection;;;
  results <- call (EvPredict image "cpu") (yolo_predict env model image);;
  result <- first_result results;;
  counts <- count_boxes (names result) (boxes result) (zero_for_names (names result));;
  publish_counts_to_mqtt env mqtt_sensors counts;;;
  ret counts.

(** [{"egg": 0, "chicken": 0}]. *)
Definition zero_counts : gmap string nat :=
  <["chicken" := 0]> (<["egg" := 0]> ∅).

(** Truth value of [mqtt_sensors]: [None] and the empty dict are false. *)
Definition truthy (mqtt_sensors : option (gmap string Sensor)) : bool :=
  match mqtt_sensors with
  | None => false
  | Some d => negb (bool_decide (d = ∅))
  end.

Definition perform_detection (env : CycleEnv) (model : YOLO) (image : Image)
    (mqtt_sensors : option (gmap string Sensor)) : M (gmap string nat) :=
  try_except
    (detection_body env model image mqtt_sensors)
    (except_Exception (fun e =>
       call EvPrintExc (Ok tt);;;
       log ERROR (MDetectionFailed e);;;
       (if truthy mqtt_sensors then
          try_except
            (publish_counts_to_mqtt env mqtt_sensors zero_counts)
            (except_Exception (fun mqtt_error =>
               log ERROR (MFailedPublishZero mqtt_error)))
        else ret tt);;;
       ret zero_counts)).

(** ** setup_mqtt_sensors *)

(** [x if x else None] on a string. *)
Definition nonempty_or_None (x : string) : option string :=
  if String.eqb x "" then None else Some x.

Definition mqtt_settings (cfg : Config) : MQTT :=
  {| host := MQTT_HOST cfg;
     port := MQTT_PORT cfg;
     username := nonempty_or_None (MQTT_USERNAME cfg);
     password := nonempty_or_None (MQTT_PASSWORD cfg);
     tls := MQTT_USE_TLS cfg |}.

Definition device_info : DeviceInfo :=
  {| dev_name := "Henhouse Monitor";
     identifiers := ["henhouse_001"];
     manufacturer := "Custom";
     dev_model := "Egg Detector v1.0" |}.

Definition egg_sensor_info : SensorInfo :=
  {| name := "Eggs";
     unique_id := "henhouse_eggs";
     unit_of_measurement := None;
     icon := "mdi:egg";
     device := device_info |}.

Definition chicken_sensor_info : SensorInfo :=
  {| name := "Chickens";
     unique_id := "henhouse_chickens";
     unit_of_measurement := None;
     icon := "mdi:bird";
     device := device_info |}.

Definition egg_settings (cfg : Config) : Settings :=
  {| mqtt := mqtt_settings cfg; entity := egg_sensor_info |}.

Definition chicken_settings (cfg : Config) : Settings :=
  {| mqtt := mqtt_settings cfg; entity := chicken_sensor_info |}.

(** [Sensor(settings)]: the constructor talks to the broker and may raise. *)
Definition new_Sensor (w : World) (s : Settings) : M Sensor :=
  call (EvSensorNew s) (sensor_new w s);;;
  ret {| sensor_settings := s |}.

Definition setup_mqtt_sensors (cfg : Config) (w : World) : M (gmap string Sensor) :=
  eggs <- new_Sensor w (egg_settings cfg);;
  chickens <- new_Sensor w (chicken_settings cfg);;
  let sensors : gmap string Sensor := <["chickens" := chickens]> (<["eggs" := eggs]> ∅) in
  log INFO MSensorsInitialized;;;
  ret sensors.

(** ** get_memory_usage *)

(** The resident set size as [psutil] reports it.  The script divides it
    by 1024 twice to print megabytes; the embedding keeps the bytes. *)
Definition get_memory_usage (rss : result Z) : M Z :=
  call EvMemoryInfo rss.

(** ** main *)

(** Lines 210 to 220: everything of an iteration before the [if] on the
    cycle counter. *)
Definition cycle_work (cfg : Config) (env : CycleEnv) (model : YOLO)
    (mqtt_sensors : option (gmap string Sensor)) (cycle_count : nat) : M unit :=
  current_memory <- get_memory_usage (rss_at_start env);;
  log DEBUG (MStartingCycle cycle_count current_memory);;;
  image <- load_image cfg env;;
  perform_detection env model image mqtt_sensors;;;
  ret tt.

(** Lines 223 to 226. *)
Definition gc_step (env : CycleEnv) (cycle_count : nat) : M unit :=
  if Nat.eqb (cycle_count mod 10) 0 then
    call EvGcCollect (gc_collect env);;;
    memory_after_gc <- get_memory_usage (rss_after_gc env);;
    log INFO (MMemoryAfterGC cycle_count memory_after_gc)
  else ret tt.

(** How the [try] statement of the loop leaves: on to the sleep, or [break]. *)
Inductive flow := Next | Break.

(** The two [except] clauses of the loop, in source order. *)
Definition cycle_clauses (e : exn) : option (M flow) :=
  match e with
  | KeyboardInterrupt => Some (log INFO MInterrupt;;; ret Break)
  | _ =>
      except_Exception (fun e =>
        log ERROR (MErrorInCycle e);;;
        log INFO MContinuingNextCycle;;;
        ret Next) e
  end.

(** The [try] statement of the loop, for the counter value [cycle_count]
    (already incremented). *)
Definition cycle_try (cfg : Config) (env : CycleEnv) (model : YOLO)
    (mqtt_sensors : option (gmap string Sensor)) (cycle_count : nat) : M flow :=
  try_except
    (cycle_work cfg env model mqtt_sensors cycle_count;;;
     gc_step env cycle_count;;;
     ret Next)
    cycle_clauses.

(** Lines 236 and 237. *)
Definition wait (env : CycleEnv) : M unit :=
  log DEBUG (MWaiting DETECTION_INTERVAL);;;
  call (EvSleep DETECTION_INTERVAL) (sleep env).

Inductive loop_exit :=
| Broke
| StillLooping (cycle_count : nat).

(** [while True], run for at most [fuel] iterations.  [cycle_count] is the
    counter before the iteration; iteration number [n] talks to
    [cycle_env w n]. *)
Fixpoint monitor (cfg : Config) (w : World) (model : YOLO)
    (mqtt_sensors : option (gmap string Sensor)) (fuel : nat) (cycle_count : nat)
  : M loop_exit :=
  match fuel with
  | O => ret (StillLooping cycle_count)
  | S fuel' =>
      let cycle_count := cycle_count + 1 in
      fl <- cycle_try cfg (cycle_env w cycle_count) model mqtt_sensors cycle_count;;
      match fl with
      | Break => ret Broke
      | Next =>
          wait (cycle_env w cycle_count);;;
          monitor cfg w model mqtt_sensors fuel' cycle_count
      end
  end.

(** [logging.getLogger().handlers] as [basicConfig] set them up. *)
Definition handlers : list handler := [StreamHandler].

Fixpoint flush_all (hs : list handler) : M unit :=
  match hs with
  | [] => ret tt
  | h :: rest => call (EvFlush h) (Ok tt);;; flush_all rest
  end.

Inductive main_exit :=
| StartupAborted
| ShutDown
| StillRunning (cycle_count : nat).

Definition main (cfg : Config) (w : World) (fuel : nat) : M main_exit :=
  log INFO MStarting;;;
  loaded <-
    try_except
      (model <- load_model w;;
       initial_memory <- get_memory_usage (rss_initial w);;
       log INFO (MInitialMemory initial_memory);;;
       ret (Some model))
      (except_Exception (fun e =>
         log ERROR (MFailedInitModel e);;;
         ret None));;
  match loaded with
  | None => ret StartupAborted
  | Some model =>
      mqtt_sensors <-
        try_except
          (sensors <- setup_mqtt_sensors cfg w;;
           log INFO MMqttEnabled;;;
           ret (Some sensors))
          (except_Exception (fun e =>
             log WARNING (MFailedInitMqtt e);;;
             log WARNING MContinuingWithoutMqtt;;;
             ret None));;
      log INFO (MStartingMonitoring DETECTION_INTERVAL);;;
      ex <- monitor cfg w model mqtt_sensors fuel 0;;
      match ex with
      | StillLooping c => ret (StillRunning c)
      | Broke =>
          log INFO MShutdownCompleted;;;
          flush_all handlers;;;
          ret ShutDown
      end
  end.

(** ** Reading traces *)

Definition is_set_state (ev : event) : bool :=
  match ev with EvSetState _ _ => true | _ => false end.

Definition is_gc_event (ev : event) : bool :=
  match ev with
  | EvGcCollect | EvLog _ (MMemoryAfterGC _ _) => true
  | _ => false
  end.

Definition is_memory_after_gc (m : message) : bool :=
  match m with MMemoryAfterGC _ _ => true | _ => false end.

Definition is_registration (ev : event) : bool :=
  match ev with EvSensorNew _ => true | _ => false end.

(** Events that only an iteration of the loop, or the line announcing the
    loop, can produce. *)
Definition is_loop_event (ev : event) : bool :=
  match ev with
  | EvLog _ (MStartingMonitoring _) | EvLog _ (MStartingCycle _ _)
  | EvLog _ (MWaiting _) | EvSleep _ | EvPredict _ _
  | EvHttpGet _ _ | EvImageOpenRaw _ | EvImageOpenFile _
  | EvSetState _ _ | EvGcCollect => true
  | _ => false
  end.

Definition is_shutdown_event (ev : event) : bool :=
  match ev with
  | EvLog _ MInterrupt | EvLog _ MShutdownCompleted | EvFlush _ => true
  | _ => false
  end.

Fixpoint count_if (p : event -> bool) (t : list event) : nat :=
  match t with
  | [] => 0
  | ev :: rest => (if p ev then 1 else 0) + count_if p rest
  end.

(** The exception a log record reports, if it reports one. *)
Definition reported (m : message) : option exn :=
  match m with
  | MFailedLoadModel e | MFailedInitModel e | MFailedInitMqtt e
  | MFailedLoadImage e | MFailedPublish e | MDetectionFailed e
  | MFailedPublishZero e | MErrorInCycle e => Some e
  | _ => None
  end.

#[global] Instance pykey_eq_dec : EqDecision pykey.
Proof. solve_decision. Defined.

#[global] Instance exn_eq_dec : EqDecision exn.
Proof. solve_decision. Defined.

(** An ERROR record that reports the exception [e]. *)
Definition logs_failure (e : exn) (ev : event) : bool :=
  match ev with
  | EvLog ERROR m => bool_decide (reported m = Some e)
  | _ => false
  end.

Definition is_failed_to_load_image (ev : event) : bool :=
  match ev with EvLog _ (MFailedLoadImage _) => true | _ => false end.

(** The number of boxes whose class id resolves to the name [nm]. *)
Definition detections_named (r : Results) (nm : string) : nat :=
  length (filter (fun class_id => names r !! class_id = Some nm) (boxes r)).

(** The oracle of [set_state] fails only with ordinary exceptions: no
    interrupt is delivered while a sensor is being written. *)
Definition set_state_uninterrupted (env : CycleEnv) : Prop :=
  forall s v e, set_state env s v = Raise e -> is_Exception e = true.

(** ** Sample worlds *)

Definition default_config : Config :=
  {| MQTT_HOST := "localhost"; MQTT_PORT := 1883; MQTT_USERNAME := "";
     MQTT_PASSWORD := ""; MQTT_USE_TLS := false; IMAGE_SOURCE := "file";
     IMAGE_URL := "not_set"; IMAGE_FILE := "snapshot.jpeg" |}.

Definition hen_names : gmap Z string :=
  <[2%Z := "rooster"]> (<[1%Z := "chicken"]> (<[0%Z := "egg"]> ∅)).

(** Three eggs, two chickens, one more egg. *)
Definition scenario_results : Results :=
  {| names := hen_names; boxes := [0; 0; 0; 1; 1; 0]%Z |}.

Definition the_model : YOLO :=
  {| weights := "models/henhouse.onnx"; task := "detect" |}.

Definition snapshot : Image := {| size := (640, 480)%Z |}.

Definition calm_env : CycleEnv :=
  {| rss_at_start := Ok 1000%Z;
     http_get := fun _ => Ok {| status_code := 200 |};
     image_open_raw := fun _ => Ok snapshot;
     image_open_file := fun _ => Ok snapshot;
     yolo_predict := fun _ _ => Ok [scenario_results];
     set_state := fun _ _ => Ok tt;
     gc_collect := Ok tt;
     rss_after_gc := Ok 900%Z;
     sleep := Ok tt |}.

Definition calm_world : World :=
  {| yolo_load := Ok the_model;
     rss_initial := Ok 1000%Z;
     sensor_new := fun _ => Ok tt;
     cycle_env := fun _ => calm_env |}.

(** The sensors [setup_mqtt_sensors] returns under [default_config]. *)
Definition both_sensors : gmap string Sensor :=
  <["chickens" := {| sensor_settings := chicken_settings default_config |}]>
    (<["eggs" := {| sensor_settings := egg_settings default_config |}]> ∅).

(** The broker refuses the connection: registration fails. *)
Definition connection_refused : exn :=
  LibraryError "ConnectionRefusedError" "[Errno 111] Connection refused".

Definition no_broker_world : World :=
  {| yolo_load := Ok the_model;
     rss_initial := Ok 1000%Z;
     sensor_new := fun _ => Raise connection_refused;
     cycle_env := fun _ => calm_env |}.

(** The configured image file does not exist. *)
Definition file_not_found : exn :=
  LibraryError "FileNotFoundError" "[Errno 2] No such file or directory".

Definition missing_file_env : CycleEnv :=
  {| rss_at_start := Ok 1000%Z;
     http_get := http_get calm_env;
     image_open_raw := image_open_raw calm_env;
     image_open_file := fun _ => Raise file_not_found;
     yolo_predict := yolo_predict calm_env;
     set_state := set_state calm_env;
     gc_collect := Ok tt;
     rss_after_gc := Ok 900%Z;
     sleep := Ok tt |}.

Definition missing_file_world : World :=
  {| yolo_load := Ok the_model;
     rss_initial := Ok 1000%Z;
     sensor_new := fun _ => Ok tt;
     cycle_env := fun _ => missing_file_env |}.

(** The detector reports an egg, then a box of a class outside its table. *)
Definition stray_class_env : CycleEnv :=
  {| rss_at_start := Ok 1000%Z;
     http_get := http_get calm_env;
     image_open_raw := image_open_raw calm_env;
     image_open_file := image_open_file calm_env;
     yolo_predict := fun _ _ => Ok [{| names := hen_names; boxes := [0; 7]%Z |}];
     set_state := set_state calm_env;
     gc_collect := Ok tt;
     rss_after_gc := Ok 900%Z;
     sleep := Ok tt |}.

(** Ctrl-C arrives while the process sleeps after its first cycle. *)
Definition interrupted_sleep_env : CycleEnv :=
  {| rss_at_start := Ok 1000%Z;
     http_get := http_get calm_env;
     image_open_raw := image_open_raw calm_env;
     image_open_file := image_open_file calm_env;
     yolo_predict := yolo_predict calm_env;
     set_state := set_state calm_env;
     gc_collect := Ok tt;
     rss_after_gc := Ok 900%Z;
     sleep := Raise KeyboardInterrupt |}.

Definition interrupted_sleep_world : World :=
  {| yolo_load := Ok the_model;
     rss_initial := Ok 1000%Z;
     sensor_new := fun _ => Ok tt;
     cycle_env := fun _ => interrupted_sleep_env |}.

(** The model file is missing. *)
Definition no_model_world : World :=
  {| yolo_load := Raise file_not_found;
     rss_initial := Ok 1000%Z;
     sensor_new := fun _ => Ok tt;
     cycle_env := fun _ => calm_env |}.

(** Only the tenth iteration finds no image. *)
Definition tenth_fails_world : World :=
  {| yolo_load := Ok the_model;
     rss_initial := Ok 1000%Z;
     sensor_new := fun _ => Ok tt;
     cycle_env := fun n => if Nat.eqb n 10 then missing_file_env else calm_env |}.

(** Ctrl-C arrives while the third iteration reads the image. *)
Definition interrupted_load_env : CycleEnv :=
  {| rss_at_start := Ok 1000%Z;
     http_get := http_get calm_env;
     image_open_raw := image_open_raw calm_env;
     image_open_file := fun _ => Raise KeyboardInterrupt;
     yolo_predict := yolo_predict calm_env;
     set_state := set_state calm_env;
     gc_collect := Ok tt;
     rss_after_gc := Ok 900%Z;
     sleep := Ok tt |}.

(** The camera is reached over HTTP. *)
Definition camera_config : Config :=
  {| MQTT_HOST := "localhost"; MQTT_PORT := 1883; MQTT_USERNAME := "";
     MQTT_PASSWORD := ""; MQTT_USE_TLS := false; IMAGE_SOURCE := "url";
     IMAGE_URL := "http://camera.local/snapshot.jpeg";
     IMAGE_FILE := "snapshot.jpeg" |}.

(** The same, with the source mode written in capitals. *)
Definition shouting_config : Config :=
  {| MQTT_HOST := "localhost"; MQTT_PORT := 1883; MQTT_USERNAME := "";
     MQTT_PASSWORD := ""; MQTT_USE_TLS := false; IMAGE_SOURCE := "URL";
     IMAGE_URL := "http://camera.local/snapshot.jpeg";
     IMAGE_FILE := "snapshot.jpeg" |}.

Definition interrupted_load_world : World :=
  {| yolo_load := Ok the_model;
     rss_initial := Ok 1000%Z;
     sensor_new := fun _ => Ok tt;
     cycle_env := fun n => if Nat.eqb n 3 then interrupted_load_env else calm_env |}.

(** ** Notions used in the statements *)

(** [sensors[k]] as an option: the handle the call would write to. *)
Definition handle (sensors : option (gmap string Sensor)) (k : string) : option Sensor :=
  match sensors with
  | None => None
  | Some d => d !! k
  end.

(** A computation whose trace has no event satisfying [p]. *)
Definition silent {A} (p : event -> bool) (m : M A) : Prop :=
  Forall (fun ev => p ev = false) (trace m).

(** What iteration [n] leaves in the trace when its image fails to load
    with the exception [e]. *)
Definition failed_load_trace (cfg : Config) (env : CycleEnv) (n : nat) (rss : Z)
    (e : exn) : list event :=
  [EvMemoryInfo; EvLog DEBUG (MStartingCycle n rss)] ++ trace (load_image cfg env)
    ++ [EvLog ERROR (MErrorInCycle e); EvLog INFO MContinuingNextCycle].

(** Iteration [n] cannot show a collection: its counter is not a multiple
    of ten, or it raises before the [if]. *)
Definition no_collection_at (cfg : Config) (w : World) (model : YOLO)
    (sensors : option (gmap string Sensor)) (n : nat) : Prop :=
  n mod 10 <> 0 \/
  exists e, outcome (cycle_work cfg (cycle_env w n) model sensors n) = Raise e.

(** ** Proof automation *)

(** Unfold the computations of [publish_counts_to_mqtt]. *)
Ltac unfold_M :=
  unfold publish_counts_to_mqtt, subscript_sensors, subscript_counts,
    try_except, except_Exception, bind, call, log, raise, ret, trace, outcome
    in *.

(** Case analysis on every [match] left, innermost scrutinee first. *)
Ltac crunch :=
  repeat (simpl in *; simplify_eq;
          match goal with
          | H : context [match ?x with _ => _ end] |- _ =>
              lazymatch x with
              | context [match _ with _ => _ end] => fail
              | _ => destruct x eqn:?
              end
          | |- context [match ?x with _ => _ end] =>
              lazymatch x with
              | context [match _ with _ => _ end] => fail
              | _ => destruct x eqn:?
              end
          end).

(** ** Notions used for the whole script *)



(** A computation that lets no ordinary exception out. *)
Definition never_Exception {A} (m : M A) : Prop :=
  forall e, outcome m = Raise e -> is_Exception e = false.

(** A computation that raises ordinary exceptions only. *)
Definition only_Exception {A} (m : M A) : Prop :=
  forall e, outcome m = Raise e -> is_Exception e = true.

(** The body of the [try] statement of the loop. *)
Definition cycle_body (cfg : Config) (env : CycleEnv) (model : YOLO)
    (mqtt_sensors : option (gmap string Sensor)) (cycle_count : nat) : M flow :=
  cycle_work cfg env model mqtt_sensors cycle_count;;;
  gc_step env cycle_count;;;
  ret Next.

(** The dict [setup_mqtt_sensors] builds. *)
Definition registered_sensors (cfg : Config) : gmap string Sensor :=
  <["chickens" := {| sensor_settings := chicken_settings cfg |}]>
    (<["eggs" := {| sensor_settings := egg_settings cfg |}]> ∅).

(** Lines 184 to 204 of [main]: everything before the loop.  [None] is
    the early [return]. *)
Definition startup (cfg : Config) (w : World)
  : M (option (YOLO * option (gmap string Sensor))) :=
  log INFO MStarting;;;
  loaded <-
    try_except
      (model <- load_model w;;
       initial_memory <- get_memory_usage (rss_initial w);;
       log INFO (MInitialMemory initial_memory);;;
       ret (Some model))
      (except_Exception (fun e =>
         log ERROR (MFailedInitModel e);;;
         ret None));;
  match loaded with
  | None => ret None
  | Some model =>
      mqtt_sensors <-
        try_except
          (sensors <- setup_mqtt_sensors cfg w;;
           log INFO MMqttEnabled;;;
           ret (Some sensors))
          (except_Exception (fun e =>
             log WARNING (MFailedInitMqtt e);;;
             log WARNING MContinuingWithoutMqtt;;;
             ret None));;
      log INFO (MStartingMonitoring DETECTION_INTERVAL);;;
      ret (Some (model, mqtt_sensors))
  end.

(** Lines 239 to 242 of [main]: what follows the loop. *)
Definition finish (ex : loop_exit) : M main_exit :=
  match ex with
  | StillLooping c => ret (StillRunning c)
  | Broke =>
      log INFO MShutdownCompleted;;;
      flush_all handlers;;;
      ret ShutDown
  end.

Definition is_sleep (ev : event) : bool :=
  match ev with EvSleep _ => true | _ => false end.

Definition is_yolo_load (ev : event) : bool :=
  match ev with EvYoloLoad _ _ => true | _ => false end.

(** The events the [try] statement of the loop can produce. *)
Definition try_emits (ev : event) : bool :=
  match ev with
  | EvYoloLoad _ _ | EvSensorNew _ | EvSleep _ | EvFlush _ => false
  | _ => true
  end.

(** The sum of all counts of a count map. *)
Definition total (counts : gmap string nat) : nat :=
  map_fold (fun _ v acc => v + acc) 0 counts.

(** The detector is interrupted. *)
Definition interrupted_predict_env : CycleEnv :=
  {| rss_at_start := Ok 1000%Z;
     http_get := http_get calm_env;
     image_open_raw := image_open_raw calm_env;
     image_open_file := image_open_file calm_env;
     yolo_predict := fun _ _ => Raise KeyboardInterrupt;
     set_state := set_state calm_env;
     gc_collect := Ok tt;
     rss_after_gc := Ok 900%Z;
     sleep := Ok tt |}.

(** A detector that knows chickens and roosters but no eggs. *)
Definition eggless_env : CycleEnv :=
  {| rss_at_start := Ok 1000%Z;
     http_get := http_get calm_env;
     image_open_raw := image_open_raw calm_env;
     image_open_file := image_open_file calm_env;
     yolo_predict := fun _ _ =>
       Ok [{| names := <[2%Z := "rooster"]> (<[1%Z := "chicken"]> ∅);
              boxes := [1; 2; 1]%Z |}];
     set_state := set_state calm_env;
     gc_collect := Ok tt;
     rss_after_gc := Ok 900%Z;
     sleep := Ok tt |}.

Definition is_print_exc (ev : event) : bool :=
  match ev with EvPrintExc => true | _ => false end.

(** The record of the inner [except] clause of [perform_detection]. *)
Definition is_failed_publish_zero (ev : event) : bool :=
  match ev with EvLog _ (MFailedPublishZero _) => true | _ => false end.

(** A detector that knows eggs and roosters but no chickens. *)
Definition chickenless_env : CycleEnv :=
  {| rss_at_start := Ok 1000%Z;
     http_get := http_get calm_env;
     image_open_raw := image_open_raw calm_env;
     image_open_file := image_open_file calm_env;
     yolo_predict := fun _ _ =>
       Ok [{| names := <[2%Z := "rooster"]> (<[0%Z := "egg"]> ∅);
              boxes := [0; 2; 0]%Z |}];
     set_state := set_state calm_env;
     gc_collect := Ok tt;
     rss_after_gc := Ok 900%Z;
     sleep := Ok tt |}.

(** The sensor writes of a trace, in order. *)
Fixpoint sensor_writes (t : list event) : list (Sensor * nat) :=
  match t with
  | [] => []
  | EvSetState s v :: rest => (s, v) :: sensor_writes rest
  | _ :: rest => sensor_writes rest
  end.

(** The detector sees nothing in the picture. *)
Definition empty_coop_env : CycleEnv :=
  {| rss_at_start := Ok 1000%Z;
     http_get := http_get calm_env;
     image_open_raw := image_open_raw calm_env;
     image_open_file := image_open_file calm_env;
     yolo_predict := fun _ _ => Ok [{| names := hen_names; boxes := [] |}];
     set_state := set_state calm_env;
     gc_collect := Ok tt;
     rss_after_gc := Ok 900%Z;
     sleep := Ok tt |}.

(** ** Iterations of the loop *)

(** What iteration [n] of the loop leaves in the trace when it goes on to
    the next one: the [try] statement run at counter [n], then lines 236
    and 237. *)
Definition iteration_events (cfg : Config) (w : World) (model : YOLO)
    (sensors : option (gmap string Sensor)) (n : nat) : list event :=
  trace (cycle_try cfg (cycle_env w n) model sensors n)
    ++ [EvLog DEBUG (MWaiting DETECTION_INTERVAL); EvSleep DETECTION_INTERVAL].




(** * Properties *)

(** ** Computations *)

Section Computations.
Context {A B : Type}.

Lemma bind_Ok (m : M A) (f : A -> M B) t a :
  m = (t, Ok a) -> bind m f = (t ++ trace (f a), outcome (f a)).
Proof. intros ->. unfold bind, trace, outcome. by destruct (f a). Qed.

Lemma bind_Raise (m : M A) (f : A -> M B) t e :
  m = (t, Raise e) -> bind m f = (t, Raise e).
Proof. by intros ->. Qed.

Lemma try_except_Ok (body : M A) clauses t a :
  body = (t, Ok a) -> try_except body clauses = (t, Ok a).
Proof. by intros ->. Qed.

Lemma try_except_caught (body : M A) clauses t e h :
  body = (t, Raise e) -> clauses e = Some h ->
  try_except body clauses = (t ++ trace h, outcome h).
Proof. intros -> Hc. unfold try_except. rewrite Hc. by destruct h. Qed.

Lemma try_except_passed (body : M A) clauses t e :
  body = (t, Raise e) -> clauses e = None ->
  try_except body clauses = (t, Raise e).
Proof. intros -> Hc. unfold try_except. by rewrite Hc. Qed.

End Computations.

Lemma count_if_app p t1 t2 :
  count_if p (t1 ++ t2) = count_if p t1 + count_if p t2.
Proof. induction t1 as [|ev t1 IH]; simpl; [done | rewrite IH; lia]. Qed.

Lemma count_if_0 p t :
  count_if p t = 0 <-> forall ev, ev ∈ t -> p ev = false.
Proof.
  induction t as [|ev t IH]; simpl.
  - split; [intros _ ev Hin; by apply elem_of_nil in Hin | done].
  - split.
    + intros Hc ev' Hin. apply elem_of_cons in Hin as [-> | Hin].
      * destruct (p ev); [lia | done].
      * apply IH; [destruct (p ev); lia | done].
    + intros Hall. rewrite (Hall ev) by apply list_elem_of_here.
      apply IH. intros ev' Hin. apply Hall. by apply list_elem_of_further.
Qed.

(** ** The count map *)

Lemma zero_for_names_known (nms : gmap Z string) nm i :
  nms !! i = Some nm -> zero_for_names nms !! nm = Some 0.
Proof.
  intros Hi. unfold zero_for_names.
  destruct (list_to_map _ !! nm) as [c|] eqn:Hl.
  - apply elem_of_list_to_map_2 in Hl.
    apply list_elem_of_fmap in Hl as ([j nm'] & Heq & _). by simplify_eq/=.
  - apply not_elem_of_list_to_map_2 in Hl. exfalso. apply Hl.
    rewrite <- list_fmap_compose. apply list_elem_of_fmap.
    exists (i, nm). split; [done | by apply elem_of_map_to_list].
Qed.

Lemma zero_for_names_unknown (nms : gmap Z string) nm :
  (forall i, nms !! i <> Some nm) -> zero_for_names nms !! nm = None.
Proof.
  intros Hno. unfold zero_for_names. apply not_elem_of_list_to_map_1.
  rewrite <- list_fmap_compose. intros Hin.
  apply list_elem_of_fmap in Hin as ([j nm'] & Heq & Hin). simpl in Heq. subst nm'.
  apply elem_of_map_to_list in Hin. by apply (Hno j).
Qed.

(** The loop over the boxes, when every class id resolves and every name
    of the table is a key of the running count map: it does not raise,
    produces no event, and adds to each key the number of boxes of that
    name. *)
Lemma count_boxes_spec (nms : gmap Z string) (bxs : list Z) :
  (forall b, b ∈ bxs -> is_Some (nms !! b)) ->
  forall counts : gmap string nat,
    (forall i nm, nms !! i = Some nm -> is_Some (counts !! nm)) ->
    exists counts' : gmap string nat,
      count_boxes nms bxs counts = ([], Ok counts') /\
      forall nm,
        counts' !! nm =
        (fun c => c + length (filter (fun b => nms !! b = Some nm) bxs)) <$> counts !! nm.
Proof.
  induction bxs as [|b bxs IH]; intros Hres counts Hkeys.
  - exists counts. split; [done |]. intros nm. simpl.
    destruct (counts !! nm); simpl; [f_equal; lia | done].
  - simpl. destruct (Hres b) as [cn Hcn]; [apply list_elem_of_here |].
    rewrite Hcn. destruct (Hkeys _ _ Hcn) as [c Hc]. rewrite Hc.
    destruct (IH (fun b' Hb' => Hres b' (list_elem_of_further _ _ _ Hb'))
                 (<[cn := S c]> counts)) as (counts' & Hrun & Hlook).
    { intros i nm Hi. destruct (decide (cn = nm)) as [-> | Hne].
      - rewrite lookup_insert_eq. by eexists.
      - rewrite lookup_insert_ne by done. by eapply Hkeys. }
    exists counts'. split; [done |]. intros nm. rewrite Hlook.
    rewrite filter_cons. destruct (decide (cn = nm)) as [-> | Hne].
    + rewrite lookup_insert_eq, Hc. rewrite decide_True by done. simpl. f_equal. lia.
    + rewrite lookup_insert_ne by done.
      rewrite decide_False by congruence. done.
Qed.

(** A class id outside the table stops the loop with a [KeyError],
    whatever was counted before it. *)
Lemma count_boxes_unknown (nms : gmap Z string) (bxs1 bxs2 : list Z) b :
  (forall b', b' ∈ bxs1 -> is_Some (nms !! b')) ->
  nms !! b = None ->
  forall counts : gmap string nat,
    (forall i nm, nms !! i = Some nm -> is_Some (counts !! nm)) ->
    count_boxes nms (bxs1 ++ b :: bxs2) counts = ([], Raise (KeyError (KInt b))).
Proof.
  induction bxs1 as [|b1 bxs1 IH]; intros Hres Hb counts Hkeys; simpl.
  - by rewrite Hb.
  - destruct (Hres b1) as [cn Hcn]; [apply list_elem_of_here |].
    rewrite Hcn. destruct (Hkeys _ _ Hcn) as [c Hc]. rewrite Hc.
    apply IH; [| done |].
    + intros b' Hb'. apply Hres. by apply list_elem_of_further.
    + intros i nm Hi. destruct (decide (cn = nm)) as [-> | Hne].
      * rewrite lookup_insert_eq. by eexists.
      * rewrite lookup_insert_ne by done. by eapply Hkeys.
Qed.

(** ** publish_counts_to_mqtt *)

(** Without handles the call is still made: [None["eggs"]] raises a
    [TypeError], which the function catches and logs. *)
Lemma publish_without_handles env counts :
  publish_counts_to_mqtt env None counts =
  ([EvLog ERROR (MFailedPublish (TypeError "'NoneType' object is not subscriptable"))],
   Ok tt).
Proof. reflexivity. Qed.

(** Whatever is written to a sensor is the egg count on the egg sensor or
    the chicken count on the chicken sensor. *)
Lemma publish_writes env sensors counts s v :
  EvSetState s v ∈ trace (publish_counts_to_mqtt env sensors counts) ->
  (handle sensors "eggs" = Some s /\ counts !! "egg" = Some v) \/
  (handle sensors "chickens" = Some s /\ counts !! "chicken" = Some v).
Proof.
  unfold handle. unfold_M. intros Hin.
  destruct sensors as [d|]; crunch;
    repeat (apply elem_of_cons in Hin as [Hin | Hin]; simplify_eq);
    try (by apply elem_of_nil in Hin); eauto.
Qed.

(** The function swallows every ordinary exception. *)
Lemma publish_never_fails env sensors counts :
  set_state_uninterrupted env ->
  outcome (publish_counts_to_mqtt env sensors counts) = Ok tt.
Proof.
  intros Hu. unfold_M.
  destruct sensors as [d|]; crunch; try done;
    match goal with
    | H : set_state _ _ _ = Raise _ |- _ => apply Hu in H; congruence
    end.
Qed.

(** With both handles, both keys and a broker that answers, both sensors
    are written, eggs first. *)
Lemma publish_both env d counts se sc ne nc :
  d !! "eggs" = Some se -> d !! "chickens" = Some sc ->
  counts !! "egg" = Some ne -> counts !! "chicken" = Some nc ->
  set_state env se ne = Ok tt -> set_state env sc nc = Ok tt ->
  publish_counts_to_mqtt env (Some d) counts =
  ([EvSetState se ne; EvSetState sc nc; EvLog INFO (MPublished ne nc)], Ok tt).
Proof.
  intros Hse Hsc Hne Hnc Hoe Hoc. unfold_M.
  by rewrite Hse, Hsc, Hne, Hnc, Hoe, Hoc.
Qed.

(** The first thing a call with an egg handle and an egg count does is to
    write the egg sensor. *)
Lemma publish_attempts_eggs env d counts se ne :
  d !! "eggs" = Some se -> counts !! "egg" = Some ne ->
  exists rest, trace (publish_counts_to_mqtt env (Some d) counts) = EvSetState se ne :: rest.
Proof.
  intros Hse Hne. unfold_M. rewrite Hse, Hne. simpl.
  crunch; eauto.
Qed.

(** ** perform_detection *)

Lemma zero_for_names_Some (nms : gmap Z string) nm c :
  zero_for_names nms !! nm = Some c -> c = 0 /\ exists i, nms !! i = Some nm.
Proof.
  unfold zero_for_names. intros Hl. apply elem_of_list_to_map_2 in Hl.
  apply list_elem_of_fmap in Hl as ([j nm'] & Heq & Hin). simplify_eq/=.
  split; [done |]. exists j. by apply elem_of_map_to_list.
Qed.

(** The success path up to the publish call. *)
Lemma detection_body_counts env model image sensors r rest :
  yolo_predict env model image = Ok (r :: rest) ->
  (forall b, b ∈ boxes r -> is_Some (names r !! b)) ->
  exists counts : gmap string nat,
    detection_body env model image sensors =
      ([EvLog DEBUG MStartingDetection; EvPredict image "cpu"]
         ++ trace (publish_counts_to_mqtt env sensors counts),
       match outcome (publish_counts_to_mqtt env sensors counts) with
       | Ok _ => Ok counts
       | Raise e => Raise e
       end) /\
    forall nm,
      counts !! nm =
      (fun _ => detections_named r nm) <$> zero_for_names (names r) !! nm.
Proof.
  intros Hp Hres.
  destruct (count_boxes_spec (names r) (boxes r) Hres (zero_for_names (names r)))
    as (counts & Hrun & Hlook).
  { intros i nm Hi. rewrite (zero_for_names_known _ _ _ Hi). by eexists. }
  exists counts. split.
  - unfold detection_body, call, log, first_result. rewrite Hp. simpl.
    rewrite Hrun. simpl.
    destruct (publish_counts_to_mqtt env sensors counts) as [t [[]|e]]; simpl;
      by rewrite ?app_nil_r.
  - intros nm. rewrite Hlook. unfold detections_named.
    destruct (zero_for_names (names r) !! nm) as [c|] eqn:Hz; [| done].
    apply zero_for_names_Some in Hz as [-> _]. done.
Qed.

Lemma perform_detection_counts env model image sensors r rest :
  yolo_predict env model image = Ok (r :: rest) ->
  (forall b, b ∈ boxes r -> is_Some (names r !! b)) ->
  set_state_uninterrupted env ->
  exists counts : gmap string nat,
    perform_detection env model image sensors =
      ([EvLog DEBUG MStartingDetection; EvPredict image "cpu"]
         ++ trace (publish_counts_to_mqtt env sensors counts), Ok counts) /\
    forall nm,
      counts !! nm =
      (fun _ => detections_named r nm) <$> zero_for_names (names r) !! nm.
Proof.
  intros Hp Hres Hu.
  destruct (detection_body_counts env model image sensors r rest Hp Hres)
    as (counts & Hbody & Hlook).
  exists counts. split; [| done].
  unfold perform_detection. rewrite Hbody.
  pose proof (publish_never_fails env sensors counts Hu) as Hok.
  destruct (publish_counts_to_mqtt env sensors counts) as [t o].
  simpl in Hok. subst o. done.
Qed.

(** C1. On the success path [perform_detection] returns the count map that
    holds, for every class name of the model's table, the number of boxes
    resolved to that name, and no other key; every value written to a sensor
    is the number of boxes named "egg" (egg sensor) or "chicken" (chicken
    sensor), and with both handles, both names known and an answering broker
    exactly these two values are written.  For three eggs, two chickens and
    one more egg the map has egg 4, chicken 2 and zero for every other known
    name. *)
Theorem C1_counts_by_class_name :
  (forall env model image sensors r rest,
     yolo_predict env model image = Ok (r :: rest) ->
     (forall b, b ∈ boxes r -> is_Some (names r !! b)) ->
     set_state_uninterrupted env ->
     exists counts : gmap string nat,
       perform_detection env model image sensors =
         ([EvLog DEBUG MStartingDetection; EvPredict image "cpu"]
            ++ trace (publish_counts_to_mqtt env sensors counts), Ok counts) /\
       (forall nm i, names r !! i = Some nm ->
          counts !! nm = Some (detections_named r nm)) /\
       (forall nm, (forall i, names r !! i <> Some nm) -> counts !! nm = None) /\
       (forall s v,
          EvSetState s v ∈ trace (perform_detection env model image sensors) ->
          (handle sensors "eggs" = Some s /\ v = detections_named r "egg") \/
          (handle sensors "chickens" = Some s /\ v = detections_named r "chicken")) /\
       (forall se sc ie ic,
          handle sensors "eggs" = Some se -> handle sensors "chickens" = Some sc ->
          names r !! ie = Some "egg" -> names r !! ic = Some "chicken" ->
          set_state env se (detections_named r "egg") = Ok tt ->
          set_state env sc (detections_named r "chicken") = Ok tt ->
          trace (perform_detection env model image sensors) =
            [EvLog DEBUG MStartingDetection; EvPredict image "cpu";
             EvSetState se (detections_named r "egg");
             EvSetState sc (detections_named r "chicken");
             EvLog INFO (MPublished (detections_named r "egg")
                                    (detections_named r "chicken"))]))
  /\
  (forall env model image sensors r rest ie ic,
     yolo_predict env model image = Ok (r :: rest) ->
     names r !! ie = Some "egg" -> names r !! ic = Some "chicken" ->
     boxes r = [ie; ie; ie; ic; ic; ie] ->
     set_state_uninterrupted env ->
     exists counts : gmap string nat,
       outcome (perform_detection env model image sensors) = Ok counts /\
       counts !! "egg" = Some 4 /\
       counts !! "chicken" = Some 2 /\
       (forall nm i, names r !! i = Some nm -> nm <> "egg" -> nm <> "chicken" ->
          counts !! nm = Some 0) /\
       (forall nm, (forall i, names r !! i <> Some nm) -> counts !! nm = None)).
Proof.
  split.
  - intros env model image sensors r rest Hp Hres Hu.
    destruct (perform_detection_counts env model image sensors r rest Hp Hres Hu)
      as (counts & Hrun & Hlook).
    exists counts. split; [done |].
    assert (Hknown : forall nm i, names r !! i = Some nm ->
              counts !! nm = Some (detections_named r nm)).
    { intros nm i Hi. by rewrite Hlook, (zero_for_names_known _ _ _ Hi). }
    split; [done |]. split.
    { intros nm Hno. by rewrite Hlook, (zero_for_names_unknown _ _ Hno). }
    split.
    + intros s v. rewrite Hrun. simpl. intros Hin.
      do 2 (apply elem_of_cons in Hin as [Hin | Hin]; [done |]).
      apply publish_writes in Hin as [[Hh Hc] | [Hh Hc]]; [left | right];
        (split; [done |]); rewrite Hlook in Hc;
        destruct (zero_for_names (names r) !! _); by simplify_eq/=.
    + intros se sc ie ic Hse Hsc Hie Hic Hoe Hoc. rewrite Hrun. simpl.
      destruct sensors as [d|]; [| done]. simpl in Hse, Hsc.
      by rewrite (publish_both env d counts se sc _ _ Hse Hsc
                    (Hknown _ _ Hie) (Hknown _ _ Hic) Hoe Hoc).
  - intros env model image sensors r rest ie ic Hp Hie Hic Hb Hu.
    assert (Hres : forall b, b ∈ boxes r -> is_Some (names r !! b)).
    { intros b. rewrite Hb. intros Hin.
      repeat (apply elem_of_cons in Hin as [-> | Hin]; [by eexists |]).
      by apply elem_of_nil in Hin. }
    destruct (perform_detection_counts env model image sensors r rest Hp Hres Hu)
      as (counts & Hrun & Hlook).
    assert (Hcount : forall nm,
              detections_named r nm =
              (if decide (nm = "egg") then 4 else 0) +
              (if decide (nm = "chicken") then 2 else 0)).
    { intros nm. unfold detections_named. rewrite Hb.
      rewrite !filter_cons, filter_nil, Hie, Hic.
      repeat case_decide; simplify_eq; done. }
    exists counts. split; [by rewrite Hrun |].
    split; [by rewrite Hlook, (zero_for_names_known _ _ _ Hie), Hcount |].
    split; [by rewrite Hlook, (zero_for_names_known _ _ _ Hic), Hcount |].
    split.
    + intros nm i Hi Hne Hnc.
      rewrite Hlook, (zero_for_names_known _ _ _ Hi), Hcount. simpl.
      by rewrite !decide_False by done.
    + intros nm Hno. by rewrite Hlook, (zero_for_names_unknown _ _ Hno).
Qed.

Lemma C1_witness :
  yolo_predict calm_env the_model snapshot = Ok [scenario_results] /\
  set_state_uninterrupted calm_env /\
  (exists counts : gmap string nat,
     outcome (perform_detection calm_env the_model snapshot (Some both_sensors))
       = Ok counts /\
     counts !! "egg" = Some 4 /\
     counts !! "chicken" = Some 2 /\
     counts !! "rooster" = Some 0 /\
     counts !! "fox" = None).
Proof.
  assert (Hu : set_state_uninterrupted calm_env).
  { intros s v e H. discriminate H. }
  split; [reflexivity |]. split; [exact Hu |].
  destruct (proj2 C1_counts_by_class_name calm_env the_model snapshot
              (Some both_sensors) scenario_results [] 0%Z 1%Z)
    as (counts & Hout & Hegg & Hchicken & Hother & Hunknown);
    [reflexivity | reflexivity | reflexivity | reflexivity | exact Hu |].
  exists counts. split; [exact Hout |]. split; [exact Hegg |].
  split; [exact Hchicken |]. split.
  - apply (Hother "rooster" 2%Z); [reflexivity | discriminate | discriminate].
  - apply Hunknown. intros i Hi.
    apply (elem_of_map_to_list hen_names) in Hi. vm_compute in Hi.
    repeat (apply elem_of_cons in Hi as [Hi | Hi]; [discriminate Hi |]).
    by apply elem_of_nil in Hi.
Defined.

(** The three ways the success path raises before anything is published. *)
Lemma detection_body_predict_raises env model image sensors e :
  yolo_predict env model image = Raise e ->
  detection_body env model image sensors =
  ([EvLog DEBUG MStartingDetection; EvPredict image "cpu"], Raise e).
Proof. intros Hp. unfold detection_body, call, log. by rewrite Hp. Qed.

Lemma detection_body_no_result env model image sensors :
  yolo_predict env model image = Ok [] ->
  detection_body env model image sensors =
  ([EvLog DEBUG MStartingDetection; EvPredict image "cpu"],
   Raise (IndexError "list index out of range")).
Proof. intros Hp. unfold detection_body, call, log. by rewrite Hp. Qed.

Lemma detection_body_unknown_class env model image sensors r rest bxs1 b bxs2 :
  yolo_predict env model image = Ok (r :: rest) ->
  boxes r = bxs1 ++ b :: bxs2 ->
  (forall b', b' ∈ bxs1 -> is_Some (names r !! b')) ->
  names r !! b = None ->
  detection_body env model image sensors =
  ([EvLog DEBUG MStartingDetection; EvPredict image "cpu"],
   Raise (KeyError (KInt b))).
Proof.
  intros Hp Hb Hres Hnone. unfold detection_body, call, log, first_result.
  rewrite Hp. simpl. rewrite Hb.
  rewrite (count_boxes_unknown (names r) bxs1 bxs2 b Hres Hnone); [done |].
  intros i nm Hi. rewrite (zero_for_names_known _ _ _ Hi). by eexists.
Qed.

Lemma zero_counts_lookup k :
  zero_counts !! k = if decide (k = "egg" \/ k = "chicken") then Some 0 else None.
Proof.
  unfold zero_counts. case_decide as Hk.
  - destruct Hk as [-> | ->]; [| by rewrite lookup_insert_eq].
    rewrite lookup_insert_ne by done. by rewrite lookup_insert_eq.
  - rewrite !lookup_insert_ne by (intros <-; tauto). apply lookup_empty.
Qed.

(** C2. When the body of the [try] raises an [Exception], nothing escapes
    [perform_detection]: after the traceback and the error record it
    publishes the fallback if the handles are truthy, and returns the map
    whose only keys are "egg" and "chicken", both zero.  With an egg handle
    the egg sensor is written with 0. *)
Theorem C2_fallback_on_detection_error env model image sensors e :
  outcome (detection_body env model image sensors) = Raise e ->
  is_Exception e = true ->
  set_state_uninterrupted env ->
  perform_detection env model image sensors =
    (trace (detection_body env model image sensors)
       ++ [EvPrintExc; EvLog ERROR (MDetectionFailed e)]
       ++ (if truthy sensors
           then trace (publish_counts_to_mqtt env sensors zero_counts)
           else []),
     Ok zero_counts) /\
  (forall k,
     zero_counts !! k = if decide (k = "egg" \/ k = "chicken") then Some 0 else None) /\
  (forall d se, sensors = Some d -> d !! "eggs" = Some se ->
     EvSetState se 0 ∈ trace (perform_detection env model image sensors)).
Proof.
  intros Hraise He Hu.
  assert (Hrun : perform_detection env model image sensors =
    (trace (detection_body env model image sensors)
       ++ [EvPrintExc; EvLog ERROR (MDetectionFailed e)]
       ++ (if truthy sensors
           then trace (publish_counts_to_mqtt env sensors zero_counts)
           else []),
     Ok zero_counts)).
  { unfold perform_detection.
    destruct (detection_body env model image sensors) as [t o].
    simpl in Hraise. subst o. unfold try_except at 1, except_Exception at 1.
    rewrite He. simpl.
    destruct (truthy sensors).
    - pose proof (publish_never_fails env sensors zero_counts Hu) as Hok.
      destruct (publish_counts_to_mqtt env sensors zero_counts) as [tp op].
      simpl in Hok. subst op. simpl. by rewrite app_nil_r.
    - done. }
  split; [exact Hrun |]. split; [exact zero_counts_lookup |].
  intros d se -> Hse. rewrite Hrun.
  assert (Ht : truthy (Some d) = true).
  { simpl. apply negb_true_iff, bool_decide_eq_false. intros ->.
    by rewrite lookup_empty in Hse. }
  rewrite Ht.
  destruct (publish_attempts_eggs env d zero_counts se 0 Hse) as [tl Htl].
  { by rewrite zero_counts_lookup. }
  rewrite Htl. unfold trace at 1. simpl. apply elem_of_app. right.
  do 2 apply list_elem_of_further. apply list_elem_of_here.
Qed.

(** ** Traces without events of a given kind *)

Section Silent.
Context {A B : Type} (p : event -> bool).

Lemma silent_ret (a : A) : silent p (ret a).
Proof. constructor. Qed.

Lemma silent_raise e : silent p (@raise A e).
Proof. constructor. Qed.

Lemma silent_call ev (o : result A) : p ev = false -> silent p (call ev o).
Proof. intros Hp. by repeat constructor. Qed.

Lemma silent_bind (m : M A) (f : A -> M B) :
  silent p m -> (forall a, silent p (f a)) -> silent p (bind m f).
Proof.
  unfold silent, bind, trace. intros Hm Hf.
  destruct m as [t [a|e]]; [| done].
  specialize (Hf a). destruct (f a) as [t' r]. simpl in *.
  by apply Forall_app.
Qed.

Lemma silent_try (body : M A) clauses :
  silent p body -> (forall e h, clauses e = Some h -> silent p h) ->
  silent p (try_except body clauses).
Proof.
  unfold silent, try_except, trace. intros Hb Hc.
  destruct body as [t [a|e]]; [done |].
  destruct (clauses e) as [h|] eqn:Hh; [| done].
  specialize (Hc e h Hh). destruct h as [t' r]. simpl in *.
  by apply Forall_app.
Qed.

Lemma silent_try_Exception (body : M A) h :
  silent p body -> (forall e, silent p (h e)) ->
  silent p (try_except body (except_Exception h)).
Proof.
  intros Hb Hh. apply silent_try; [done |].
  intros e h'. unfold except_Exception. destruct (is_Exception e); [| done].
  intros [= <-]. apply Hh.
Qed.

Lemma silent_count (m : M A) : silent p m <-> count_if p (trace m) = 0.
Proof. unfold silent. rewrite count_if_0. apply Forall_forall. Qed.
End Silent.

Lemma silent_log p lv m : p (EvLog lv m) = false -> silent p (log lv m).
Proof. intros Hp. by repeat constructor. Qed.

Lemma count_boxes_trace nms bxs counts : trace (count_boxes nms bxs counts) = [].
Proof.
  revert counts. induction bxs as [|b bxs IH]; intros counts; simpl; [done |].
  destruct (nms !! b); [| done]. destruct (counts !! _); [| done]. apply IH.
Qed.

Section SilentFunctions.
Variable p : event -> bool.
Hypothesis p_log :
  forall lv m, is_memory_after_gc m = false -> p (EvLog lv m) = false.

Lemma silent_log_any lv m : is_memory_after_gc m = false -> silent p (log lv m).
Proof. intros Hm. by apply silent_log, p_log. Qed.

Lemma silent_subscript_sensors sensors k : silent p (subscript_sensors sensors k).
Proof.
  unfold subscript_sensors. destruct sensors as [d|]; [| apply silent_raise].
  destruct (d !! k); [apply silent_ret | apply silent_raise].
Qed.

Lemma silent_subscript_counts counts k : silent p (subscript_counts counts k).
Proof.
  unfold subscript_counts. destruct (counts !! k); [apply silent_ret | apply silent_raise].
Qed.

Lemma silent_publish env sensors counts :
  (forall s v, p (EvSetState s v) = false) ->
  silent p (publish_counts_to_mqtt env sensors counts).
Proof.
  intros Hs. unfold publish_counts_to_mqtt.
  apply silent_try_Exception; [| intros e; by apply silent_log_any].
  repeat first
    [ apply silent_subscript_sensors | apply silent_subscript_counts
    | by apply silent_log_any | apply silent_call; apply Hs
    | apply silent_bind; [| intros ?] ].
Qed.

Lemma silent_load_image cfg env :
  (forall u t, p (EvHttpGet u t) = false) ->
  (forall r, p (EvImageOpenRaw r) = false) ->
  (forall f, p (EvImageOpenFile f) = false) ->
  silent p (load_image cfg env).
Proof.
  intros Hh Hr Hf. unfold load_image.
  apply silent_try_Exception.
  - apply silent_bind.
    + destruct (String.eqb _ _).
      * apply silent_bind; [by apply silent_log_any | intros _].
        apply silent_bind; [by apply silent_call | intros r].
        apply silent_bind; [| intros _; by apply silent_call].
        unfold raise_for_status.
        destruct (_ && _); [apply silent_raise | apply silent_ret].
      * apply silent_bind; [by apply silent_log_any | intros _].
        by apply silent_call.
    + intros image. apply silent_bind; [by apply silent_log_any | intros _].
      apply silent_ret.
  - intros e. apply silent_bind; [by apply silent_log_any | intros _].
    apply silent_raise.
Qed.

Lemma silent_perform_detection env model image sensors :
  (forall s v, p (EvSetState s v) = false) ->
  (forall i d, p (EvPredict i d) = false) ->
  p EvPrintExc = false ->
  silent p (perform_detection env model image sensors).
Proof.
  intros Hs Hp Hx. unfold perform_detection, detection_body.
  apply silent_try_Exception.
  - apply silent_bind; [by apply silent_log_any | intros _].
    apply silent_bind; [by apply silent_call | intros results].
    apply silent_bind.
    { unfold first_result. destruct results; [apply silent_raise | apply silent_ret]. }
    intros r. apply silent_bind.
    { unfold silent. rewrite count_boxes_trace. constructor. }
    intros counts. apply silent_bind; [by apply silent_publish | intros _].
    apply silent_ret.
  - intros e. apply silent_bind; [by apply silent_call | intros _].
    apply silent_bind; [by apply silent_log_any | intros _].
    apply silent_bind; [| intros _; apply silent_ret].
    destruct (truthy sensors); [| apply silent_ret].
    apply silent_try_Exception; [by apply silent_publish |].
    intros e'. by apply silent_log_any.
Qed.
End SilentFunctions.

(** ** One iteration of the loop *)

Lemma cycle_clauses_Exception e :
  is_Exception e = true ->
  cycle_clauses e =
  Some (log ERROR (MErrorInCycle e);;; log INFO MContinuingNextCycle;;; ret Next).
Proof. by destruct e. Qed.

Lemma bind_trace_prefix {A B} (m : M A) (f : A -> M B) :
  exists t, trace (bind m f) = trace m ++ t.
Proof.
  destruct m as [t [a|e]]; simpl.
  - exists (trace (f a)). unfold trace. by destruct (f a).
  - exists []. by rewrite app_nil_r.
Qed.

Lemma try_except_trace_prefix {A} (body : M A) clauses :
  exists t, trace (try_except body clauses) = trace body ++ t.
Proof.
  destruct body as [t [a|e]]; simpl.
  - exists []. by rewrite app_nil_r.
  - destruct (clauses e) as [[t' r]|]; simpl; [by exists t' |].
    exists []. by rewrite app_nil_r.
Qed.

(** The iteration up to the call of [perform_detection], when the image
    loads. *)
Lemma cycle_work_loaded cfg env model sensors n rss tl image :
  rss_at_start env = Ok rss ->
  load_image cfg env = (tl, Ok image) ->
  cycle_work cfg env model sensors n =
  ([EvMemoryInfo; EvLog DEBUG (MStartingCycle n rss)] ++ tl
     ++ trace (perform_detection env model image sensors),
   match outcome (perform_detection env model image sensors) with
   | Ok _ => Ok tt
   | Raise e => Raise e
   end).
Proof.
  intros Hrss Hload. unfold cycle_work, get_memory_usage, call, log.
  rewrite Hrss. simpl. rewrite Hload. simpl.
  destruct (perform_detection env model image sensors) as [t [counts|e]];
    simpl; by rewrite ?app_nil_r.
Qed.

(** The iteration when the image does not load. *)
Lemma cycle_work_load_fails cfg env model sensors n rss e :
  rss_at_start env = Ok rss ->
  outcome (load_image cfg env) = Raise e ->
  cycle_work cfg env model sensors n =
  ([EvMemoryInfo; EvLog DEBUG (MStartingCycle n rss)] ++ trace (load_image cfg env),
   Raise e).
Proof.
  intros Hrss Hload. unfold cycle_work, get_memory_usage, call, log.
  rewrite Hrss. simpl. destruct (load_image cfg env) as [tl o].
  simpl in Hload. by subst o.
Qed.

Lemma cycle_try_load_fails cfg env model sensors n rss e :
  rss_at_start env = Ok rss ->
  outcome (load_image cfg env) = Raise e ->
  is_Exception e = true ->
  cycle_try cfg env model sensors n =
  ([EvMemoryInfo; EvLog DEBUG (MStartingCycle n rss)] ++ trace (load_image cfg env)
     ++ [EvLog ERROR (MErrorInCycle e); EvLog INFO MContinuingNextCycle],
   Ok Next).
Proof.
  intros Hrss Hload He. unfold cycle_try.
  rewrite (cycle_work_load_fails cfg env model sensors n rss e Hrss Hload).
  simpl. by rewrite (cycle_clauses_Exception e He).
Qed.

(** [load_image] reports its own failure exactly once, as its last event. *)
Lemma load_image_failure_logged cfg env e :
  outcome (load_image cfg env) = Raise e ->
  is_Exception e = true ->
  count_if (logs_failure e) (trace (load_image cfg env)) = 1 /\
  count_if is_failed_to_load_image (trace (load_image cfg env)) = 1 /\
  last (trace (load_image cfg env)) = Some (EvLog ERROR (MFailedLoadImage e)).
Proof.
  unfold load_image, raise_for_status, try_except, except_Exception, bind, call,
    log, raise, ret, trace, outcome.
  intros Hraise He.
  destruct (String.eqb _ _); crunch; simpl in *; simplify_eq; try congruence;
    match goal with
    | H : bool_decide _ = false |- _ => by apply bool_decide_eq_false in H
    | _ => done
    end.
Qed.

(** ** The loop *)

(** An iteration that falls through to the sleep, and wakes up. *)
Lemma monitor_next cfg w model sensors fuel c t :
  cycle_try cfg (cycle_env w (c + 1)) model sensors (c + 1) = (t, Ok Next) ->
  sleep (cycle_env w (c + 1)) = Ok tt ->
  monitor cfg w model sensors (S fuel) c =
  (t ++ [EvLog DEBUG (MWaiting DETECTION_INTERVAL); EvSleep DETECTION_INTERVAL]
     ++ trace (monitor cfg w model sensors fuel (c + 1)),
   outcome (monitor cfg w model sensors fuel (c + 1))).
Proof.
  intros Ht Hs. cbn [monitor]. rewrite Ht. unfold wait, call, log.
  rewrite Hs. simpl.
  by destruct (monitor cfg w model sensors fuel (c + 1)).
Qed.

(** C4, as the code has it.  When [load_image] raises an [Exception] the
    loop does not end: the iteration logs, sleeps and, once the sleep
    returns, the next iteration runs with the next counter value.  The
    failure is reported by two ERROR records in that iteration: one
    "Failed to load image" from [load_image] (exactly one) and one
    "Error in detection cycle" from the loop. *)
Theorem C4_image_failure_skips_cycle cfg w model sensors fuel c rss e :
  rss_at_start (cycle_env w (c + 1)) = Ok rss ->
  outcome (load_image cfg (cycle_env w (c + 1))) = Raise e ->
  is_Exception e = true ->
  sleep (cycle_env w (c + 1)) = Ok tt ->
  monitor cfg w model sensors (S fuel) c =
    (failed_load_trace cfg (cycle_env w (c + 1)) (c + 1) rss e
       ++ [EvLog DEBUG (MWaiting DETECTION_INTERVAL); EvSleep DETECTION_INTERVAL]
       ++ trace (monitor cfg w model sensors fuel (c + 1)),
     outcome (monitor cfg w model sensors fuel (c + 1))) /\
  count_if is_failed_to_load_image
    (failed_load_trace cfg (cycle_env w (c + 1)) (c + 1) rss e) = 1 /\
  count_if (logs_failure e)
    (failed_load_trace cfg (cycle_env w (c + 1)) (c + 1) rss e) = 2.
Proof.
  intros Hrss Hload He Hsleep.
  destruct (load_image_failure_logged cfg _ e Hload He) as (Hlogs & Hfailed & _).
  split; [| split].
  - apply monitor_next; [| done]. by apply cycle_try_load_fails.
  - unfold failed_load_trace. rewrite !count_if_app, Hfailed. done.
  - unfold failed_load_trace. rewrite !count_if_app, Hlogs. simpl.
    by rewrite bool_decide_eq_true_2.
Qed.

Lemma C4_witness :
  outcome (load_image default_config missing_file_env) = Raise file_not_found /\
  monitor default_config missing_file_world the_model (Some both_sensors) 1 0 =
    ([EvMemoryInfo; EvLog DEBUG (MStartingCycle 1 1000);
      EvLog DEBUG (MLoadingFromFile "snapshot.jpeg");
      EvImageOpenFile "snapshot.jpeg";
      EvLog ERROR (MFailedLoadImage file_not_found);
      EvLog ERROR (MErrorInCycle file_not_found);
      EvLog INFO MContinuingNextCycle;
      EvLog DEBUG (MWaiting 900); EvSleep 900],
     Ok (StillLooping 1)).
Proof.
  split; [reflexivity |].
  destruct (C4_image_failure_skips_cycle default_config missing_file_world
              the_model (Some both_sensors) 0 0 1000%Z file_not_found)
    as (Hrun & _ & _); [reflexivity | reflexivity | reflexivity | reflexivity |].
  rewrite Hrun. reflexivity.
Defined.

(** C4 as the specification words it fails: in an iteration whose image file is
    missing the failure is reported by two ERROR records, not one. *)
Lemma C4_counterexample :
  outcome (load_image default_config missing_file_env) = Raise file_not_found /\
  count_if (logs_failure file_not_found)
    (trace (cycle_try default_config missing_file_env the_model
              (Some both_sensors) 1)) = 2 /\
  count_if (logs_failure file_not_found)
    (trace (cycle_try default_config missing_file_env the_model
              (Some both_sensors) 1)) <> 1.
Proof. split; [reflexivity |]. split; [reflexivity | discriminate]. Qed.

Lemma C2_witness :
  outcome (detection_body stray_class_env the_model snapshot (Some both_sensors))
    = Raise (KeyError (KInt 7)) /\
  perform_detection stray_class_env the_model snapshot (Some both_sensors) =
    ([EvLog DEBUG MStartingDetection; EvPredict snapshot "cpu"; EvPrintExc;
      EvLog ERROR (MDetectionFailed (KeyError (KInt 7)));
      EvSetState {| sensor_settings := egg_settings default_config |} 0;
      EvSetState {| sensor_settings := chicken_settings default_config |} 0;
      EvLog INFO (MPublished 0 0)],
     Ok zero_counts).
Proof.
  split; [reflexivity |].
  destruct (C2_fallback_on_detection_error stray_class_env the_model snapshot
              (Some both_sensors) (KeyError (KInt 7)))
    as (Hrun & _ & _);
    [reflexivity | reflexivity | intros s v e H; discriminate H |].
  rewrite Hrun. reflexivity.
Defined.



Lemma cycle_try_trace_prefix cfg env model sensors n :
  exists t,
    trace (cycle_try cfg env model sensors n) =
    trace (cycle_work cfg env model sensors n) ++ t.
Proof.
  unfold cycle_try.
  destruct (try_except_trace_prefix
              (cycle_work cfg env model sensors n;;;
               gc_step env n;;; ret Next) cycle_clauses) as [t1 Ht1].
  destruct (bind_trace_prefix (cycle_work cfg env model sensors n)
              (fun _ => gc_step env n;;; ret Next)) as [t2 Ht2].
  exists (t2 ++ t1). by rewrite Ht1, Ht2, app_assoc.
Qed.




(** ** The periodic collection *)

Lemma gc_log_rule lv m :
  is_memory_after_gc m = false -> is_gc_event (EvLog lv m) = false.
Proof. by destruct m. Qed.

Lemma silent_cycle_work cfg env model sensors n :
  silent is_gc_event (cycle_work cfg env model sensors n).
Proof.
  unfold cycle_work, get_memory_usage.
  apply silent_bind; [by apply silent_call | intros rss].
  apply silent_bind; [by apply silent_log | intros _].
  apply silent_bind; [apply silent_load_image; auto using gc_log_rule | intros image].
  apply silent_bind; [| intros _; apply silent_ret].
  apply silent_perform_detection; auto using gc_log_rule.
Qed.

Lemma silent_cycle_clauses e h :
  cycle_clauses e = Some h -> silent is_gc_event h.
Proof.
  destruct e; simpl; intros [= <-]; unfold silent; simpl; by repeat constructor.
Qed.

(** An iteration leaves no trace of a collection when its counter is not a
    multiple of ten, and also when it raises before the [if]. *)
Lemma silent_cycle_try cfg env model sensors n :
  n mod 10 <> 0 \/ (exists e, outcome (cycle_work cfg env model sensors n) = Raise e) ->
  silent is_gc_event (cycle_try cfg env model sensors n).
Proof.
  intros Hwhy. unfold cycle_try.
  apply silent_try; [| apply silent_cycle_clauses].
  destruct Hwhy as [Hn | [e He]].
  - apply silent_bind; [apply silent_cycle_work | intros _].
    apply silent_bind; [| intros _; apply silent_ret].
    unfold gc_step. apply Nat.eqb_neq in Hn. rewrite Hn. apply silent_ret.
  - pose proof (silent_cycle_work cfg env model sensors n) as Hs.
    unfold silent in *.
    destruct (cycle_work cfg env model sensors n) as [t o].
    simpl in He. by subst o.
Qed.


(** ** Startup *)

(** C7. When [YOLO(...)] raises, [main] ends right there: after the three
    startup events come only the two error records (for an [Exception],
    and [main] returns) or nothing (for an interrupt, which escapes); no
    sensor is registered and no event of the loop occurs, whatever the
    number of iterations allowed. *)
Theorem C7_no_loop_without_model cfg w fuel e :
  yolo_load w = Raise e ->
  main cfg w fuel =
    ([EvLog INFO MStarting; EvLog INFO MLoadingModel;
      EvYoloLoad "models/henhouse.onnx" "detect"]
       ++ (if is_Exception e
           then [EvLog ERROR (MFailedLoadModel e); EvLog ERROR (MFailedInitModel e)]
           else []),
     if is_Exception e then Ok StartupAborted else Raise e) /\
  count_if is_registration (trace (main cfg w fuel)) = 0 /\
  count_if is_loop_event (trace (main cfg w fuel)) = 0.
Proof.
  intros Hload.
  assert (Hrun : main cfg w fuel =
    ([EvLog INFO MStarting; EvLog INFO MLoadingModel;
      EvYoloLoad "models/henhouse.onnx" "detect"]
       ++ (if is_Exception e
           then [EvLog ERROR (MFailedLoadModel e); EvLog ERROR (MFailedInitModel e)]
           else []),
     if is_Exception e then Ok StartupAborted else Raise e)).
  { unfold main, load_model, call, log. rewrite Hload. simpl.
    unfold except_Exception. by destruct (is_Exception e) eqn:He; simpl; rewrite ?He. }
  split; [exact Hrun |]. rewrite Hrun.
  by destruct (is_Exception e).
Qed.

Lemma C7_witness :
  yolo_load no_model_world = Raise file_not_found /\
  main default_config no_model_world 5 =
    ([EvLog INFO MStarting; EvLog INFO MLoadingModel;
      EvYoloLoad "models/henhouse.onnx" "detect";
      EvLog ERROR (MFailedLoadModel file_not_found);
      EvLog ERROR (MFailedInitModel file_not_found)],
     Ok StartupAborted).
Proof.
  split; [reflexivity |].
  destruct (C7_no_loop_without_model default_config no_model_world 5
              file_not_found eq_refl) as (Hrun & _ & _).
  rewrite Hrun. reflexivity.
Defined.

(** ** The image source *)

(** C9. [load_image] opens the configured file whenever [IMAGE_SOURCE] is
    not exactly "url": it makes no HTTP request and its result is that of
    opening the file.  With "url" it requests the configured URL with a
    timeout of 50 and opens no file. *)
Theorem C9_only_url_selects_http cfg env :
  (IMAGE_SOURCE cfg = "url" ->
   (exists tl,
      trace (load_image cfg env) =
      EvLog DEBUG (MLoadingFromUrl (IMAGE_URL cfg))
        :: EvHttpGet (IMAGE_URL cfg) 50 :: tl) /\
   (forall f, EvImageOpenFile f ∉ trace (load_image cfg env))) /\
  (IMAGE_SOURCE cfg <> "url" ->
   (exists tl,
      trace (load_image cfg env) =
      EvLog DEBUG (MLoadingFromFile (IMAGE_FILE cfg))
        :: EvImageOpenFile (IMAGE_FILE cfg) :: tl) /\
   outcome (load_image cfg env) = image_open_file env (IMAGE_FILE cfg) /\
   (forall u t, EvHttpGet u t ∉ trace (load_image cfg env)) /\
   (forall r, EvImageOpenRaw r ∉ trace (load_image cfg env))).
Proof.
  unfold load_image, raise_for_status, try_except, except_Exception, bind, call,
    log, raise, ret, trace, outcome.
  split.
  - intros Hsrc. apply String.eqb_eq in Hsrc. rewrite Hsrc. split.
    + crunch; by eexists.
    + intros f Hin. crunch;
        repeat (apply elem_of_cons in Hin as [Hin | Hin]; [done |]);
        by apply elem_of_nil in Hin.
  - intros Hsrc. apply String.eqb_neq in Hsrc. rewrite Hsrc.
    split; [crunch; by eexists |]. split; [by crunch |].
    split; intros; intros Hin; crunch;
      repeat (apply elem_of_cons in Hin as [Hin | Hin]; [done |]);
      by apply elem_of_nil in Hin.
Qed.

Lemma C9_witness :
  IMAGE_SOURCE shouting_config <> "url" /\
  (exists tl,
     trace (load_image shouting_config calm_env) =
     EvLog DEBUG (MLoadingFromFile "snapshot.jpeg")
       :: EvImageOpenFile "snapshot.jpeg" :: tl) /\
  (exists tl,
     trace (load_image camera_config calm_env) =
     EvLog DEBUG (MLoadingFromUrl "http://camera.local/snapshot.jpeg")
       :: EvHttpGet "http://camera.local/snapshot.jpeg" 50 :: tl).
Proof.
  split; [discriminate |]. split.
  - refine (proj1 (proj2 (C9_only_url_selects_http shouting_config calm_env) _)).
    discriminate.
  - refine (proj1 (proj1 (C9_only_url_selects_http camera_config calm_env) _)).
    reflexivity.
Defined.

(** ** The cycle counter *)

Section Monitor.
Variables (cfg : Config) (w : World) (model : YOLO)
  (sensors : option (gmap string Sensor)).

(** As long as the loop runs, the counter is the number of iterations
    started, whether they completed or not. *)
Lemma monitor_counts_attempts fuel :
  forall c c',
    outcome (monitor cfg w model sensors fuel c) = Ok (StillLooping c') ->
    c' = c + fuel.
Proof.
  induction fuel as [|fuel IH]; intros c c' Hrun.
  - simpl in Hrun. injection Hrun as <-. lia.
  - cbn [monitor] in Hrun.
    destruct (cycle_try cfg (cycle_env w (c + 1)) model sensors (c + 1))
      as [t [[]|e]]; simpl in Hrun; [| done | done].
    unfold wait, call, log in Hrun.
    destruct (sleep (cycle_env w (c + 1))) as [[]|e]; simpl in Hrun; [| done].
    destruct (monitor cfg w model sensors fuel (c + 1)) as [t' o] eqn:Hm.
    simpl in Hrun. subst o.
    rewrite (IH (c + 1) c'); [lia | by rewrite Hm].
Qed.

(** Every iteration starts by running the [try] statement with the
    incremented counter. *)
Lemma monitor_starts_with_cycle fuel c :
  exists t,
    trace (monitor cfg w model sensors (S fuel) c) =
    trace (cycle_try cfg (cycle_env w (c + 1)) model sensors (c + 1)) ++ t.
Proof. cbn [monitor]. apply bind_trace_prefix. Qed.

Lemma silent_monitor fuel :
  forall c,
    (forall n, c < n <= c + fuel -> no_collection_at cfg w model sensors n) ->
    silent is_gc_event (monitor cfg w model sensors fuel c).
Proof.
  induction fuel as [|fuel IH]; intros c Hall; [apply silent_ret |].
  cbn [monitor]. apply silent_bind.
  - apply silent_cycle_try. apply Hall. lia.
  - intros [|]; [| apply silent_ret].
    apply silent_bind.
    + unfold wait. apply silent_bind; [by apply silent_log | intros _].
      by apply silent_call.
    + intros _. apply IH. intros n Hn. apply Hall. lia.
Qed.
End Monitor.

Lemma between_multiples_of_ten m n :
  m mod 10 = 0 -> m < n < m + 10 -> n mod 10 <> 0.
Proof.
  intros Hm Hn Hz.
  pose proof (Nat.div_mod_eq m 10) as Em.
  pose proof (Nat.div_mod_eq n 10) as En.
  rewrite Hm in Em. rewrite Hz in En. lia.
Qed.

(** When the iteration whose counter is a multiple of ten raises before
    the [if], no collection shows in that iteration nor in the nine that
    follow. *)
Lemma no_collection_after_failed_tenth cfg w model sensors fuel c e :
  (c + 1) mod 10 = 0 ->
  outcome (cycle_work cfg (cycle_env w (c + 1)) model sensors (c + 1)) = Raise e ->
  fuel <= 10 ->
  count_if is_gc_event (trace (monitor cfg w model sensors fuel c)) = 0.
Proof.
  intros Hten Hraise Hfuel. apply silent_count, silent_monitor.
  intros n Hn. destruct (decide (n = c + 1)) as [-> | Hne].
  - right. by exists e.
  - left. apply (between_multiples_of_ten (c + 1)); [done | lia].
Qed.

(** ** Running without sensors *)

(** Without handles nothing is ever written to a sensor. *)
Lemma no_write_without_handles env counts :
  count_if is_set_state (trace (publish_counts_to_mqtt env None counts)) = 0.
Proof. reflexivity. Qed.

(** On the success path [perform_detection] calls the publish function
    even when it was given no handles. *)
Lemma perform_detection_without_handles env model image r rest :
  yolo_predict env model image = Ok (r :: rest) ->
  (forall b, b ∈ boxes r -> is_Some (names r !! b)) ->
  trace (perform_detection env model image None) =
  [EvLog DEBUG MStartingDetection; EvPredict image "cpu";
   EvLog ERROR (MFailedPublish (TypeError "'NoneType' object is not subscriptable"))].
Proof.
  intros Hp Hres.
  destruct (detection_body_counts env model image None r rest Hp Hres)
    as (counts & Hbody & _).
  unfold perform_detection. by rewrite Hbody.
Qed.

(** C3, what the code does.  When registration fails the handles are
    [None]; the first iteration still calls [publish_counts_to_mqtt], which
    raises a [TypeError] on [None["eggs"]], catches it and logs it as an
    error.  No sensor is written and nothing escapes the loop, but the
    publish step is entered and fails instead of being skipped. *)
Theorem C3_publish_entered_without_handles :
  main default_config no_broker_world 1 =
    ([EvLog INFO MStarting; EvLog INFO MLoadingModel;
      EvYoloLoad "models/henhouse.onnx" "detect"; EvLog INFO MModelLoaded;
      EvMemoryInfo; EvLog INFO (MInitialMemory 1000);
      EvSensorNew (egg_settings default_config);
      EvLog WARNING (MFailedInitMqtt connection_refused);
      EvLog WARNING MContinuingWithoutMqtt;
      EvLog INFO (MStartingMonitoring 900);
      EvMemoryInfo; EvLog DEBUG (MStartingCycle 1 1000);
      EvLog DEBUG (MLoadingFromFile "snapshot.jpeg");
      EvImageOpenFile "snapshot.jpeg"; EvLog DEBUG (MImageLoaded (640, 480)%Z);
      EvLog DEBUG MStartingDetection; EvPredict snapshot "cpu";
      EvLog ERROR (MFailedPublish (TypeError "'NoneType' object is not subscriptable"));
      EvLog DEBUG (MWaiting 900); EvSleep 900],
     Ok (StillRunning 1)) /\
  (forall env counts,
     publish_counts_to_mqtt env None counts =
     ([EvLog ERROR (MFailedPublish (TypeError "'NoneType' object is not subscriptable"))],
      Ok tt)).
Proof. split; [reflexivity | intros; reflexivity]. Qed.

(** ** Interrupts *)

(** Nothing catches what [time.sleep] raises: it leaves the loop as an
    exception. *)
Lemma monitor_sleep_raises cfg w model sensors fuel c t e :
  cycle_try cfg (cycle_env w (c + 1)) model sensors (c + 1) = (t, Ok Next) ->
  sleep (cycle_env w (c + 1)) = Raise e ->
  monitor cfg w model sensors (S fuel) c =
  (t ++ [EvLog DEBUG (MWaiting DETECTION_INTERVAL); EvSleep DETECTION_INTERVAL],
   Raise e).
Proof.
  intros Ht Hs. cbn [monitor]. rewrite Ht. unfold wait, call, log.
  by rewrite Hs.
Qed.

(** An interrupt inside the [try] statement is caught: the loop breaks. *)
Lemma monitor_interrupted_in_try cfg w model sensors fuel c t :
  (cycle_work cfg (cycle_env w (c + 1)) model sensors (c + 1);;;
   gc_step (cycle_env w (c + 1)) (c + 1);;; ret Next)
    = (t, Raise KeyboardInterrupt) ->
  monitor cfg w model sensors (S fuel) c = (t ++ [EvLog INFO MInterrupt], Ok Broke).
Proof.
  intros Hbody. cbn [monitor]. unfold cycle_try. rewrite Hbody. simpl.
  by rewrite app_nil_r.
Qed.

Example interrupt_while_loading_shuts_down :
  outcome (main default_config interrupted_load_world 5) = Ok ShutDown /\
  count_if is_shutdown_event (trace (main default_config interrupted_load_world 5)) = 3 /\
  exists t,
    trace (main default_config interrupted_load_world 5) =
    t ++ [EvLog INFO MInterrupt; EvLog INFO MShutdownCompleted; EvFlush StreamHandler].
Proof.
  split; [reflexivity |]. split; [reflexivity |].
  exists (take 39 (trace (main default_config interrupted_load_world 5))).
  vm_compute. reflexivity.
Qed.

(** C8, what the code does.  An interrupt delivered while the process
    sleeps after its first iteration leaves [main] as a [KeyboardInterrupt]:
    the loop ends, but neither the interrupt record nor the shutdown record
    is logged and no handler is flushed by [main]. *)
Theorem C8_interrupt_during_sleep_escapes fuel :
  main default_config interrupted_sleep_world (S fuel) =
    ([EvLog INFO MStarting; EvLog INFO MLoadingModel;
      EvYoloLoad "models/henhouse.onnx" "detect"; EvLog INFO MModelLoaded;
      EvMemoryInfo; EvLog INFO (MInitialMemory 1000);
      EvSensorNew (egg_settings default_config);
      EvSensorNew (chicken_settings default_config);
      EvLog INFO MSensorsInitialized; EvLog INFO MMqttEnabled;
      EvLog INFO (MStartingMonitoring 900);
      EvMemoryInfo; EvLog DEBUG (MStartingCycle 1 1000);
      EvLog DEBUG (MLoadingFromFile "snapshot.jpeg");
      EvImageOpenFile "snapshot.jpeg"; EvLog DEBUG (MImageLoaded (640, 480)%Z);
      EvLog DEBUG MStartingDetection; EvPredict snapshot "cpu";
      EvSetState {| sensor_settings := egg_settings default_config |} 4;
      EvSetState {| sensor_settings := chicken_settings default_config |} 2;
      EvLog INFO (MPublished 4 2);
      EvLog DEBUG (MWaiting 900); EvSleep 900],
     Raise KeyboardInterrupt) /\
  count_if is_shutdown_event
    (trace (main default_config interrupted_sleep_world (S fuel))) = 0.
Proof. split; reflexivity. Qed.

(** * Further properties of the script *)

(** ** What a computation lets out *)

Section Containment.
Context {A B : Type}.

Lemma outcome_bind (m : M A) (f : A -> M B) :
  outcome (bind m f) =
  match outcome m with
  | Ok a => outcome (f a)
  | Raise e => Raise e
  end.
Proof. destruct m as [t [a|e]]; simpl; [| done]. unfold outcome. by destruct (f a). Qed.

Lemma outcome_try_except (body : M A) clauses :
  outcome (try_except body clauses) =
  match outcome body with
  | Ok a => Ok a
  | Raise e =>
      match clauses e with
      | Some h => outcome h
      | None => Raise e
      end
  end.
Proof.
  destruct body as [t [a|e]]; simpl; [done |].
  by destruct (clauses e) as [[t' r]|].
Qed.

Lemma trace_bind (m : M A) (f : A -> M B) :
  trace (bind m f) =
  trace m ++ match outcome m with
             | Ok a => trace (f a)
             | Raise _ => []
             end.
Proof.
  destruct m as [t [a|e]]; simpl; [| by rewrite app_nil_r].
  unfold trace. by destruct (f a).
Qed.

Lemma trace_try_except (body : M A) clauses :
  trace (try_except body clauses) =
  trace body ++ match outcome body with
                | Ok _ => []
                | Raise e =>
                    match clauses e with
                    | Some h => trace h
                    | None => []
                    end
                end.
Proof.
  destruct body as [t [a|e]]; simpl; [by rewrite app_nil_r |].
  destruct (clauses e) as [[t' r]|]; simpl; [done | by rewrite app_nil_r].
Qed.

Lemma never_Exception_bind (m : M A) (f : A -> M B) :
  never_Exception m -> (forall a, never_Exception (f a)) ->
  never_Exception (bind m f).
Proof.
  unfold never_Exception. intros Hm Hf e. rewrite outcome_bind.
  destruct (outcome m) as [a|e'] eqn:Ho; [apply Hf |].
  intros [= ->]. by apply Hm.
Qed.

(** [except Exception] with a handler that lets no ordinary exception out
    contains whatever the body raises. *)
Lemma never_Exception_try (body : M A) h :
  (forall e, never_Exception (h e)) ->
  never_Exception (try_except body (except_Exception h)).
Proof.
  unfold never_Exception. intros Hh e. rewrite outcome_try_except.
  destruct (outcome body) as [a|e']; [done |].
  unfold except_Exception. destruct (is_Exception e') eqn:He'.
  - apply Hh.
  - by intros [= <-].
Qed.






Lemma never_Exception_ret (a : A) : never_Exception (ret a).
Proof. by intros e. Qed.
End Containment.

Lemma never_Exception_log lv m : never_Exception (log lv m).
Proof. by intros e. Qed.


(** What [publish_counts_to_mqtt] lets out is an interrupt raised by
    [set_state]. *)
Lemma publish_escape env sensors counts :
  match outcome (publish_counts_to_mqtt env sensors counts) with
  | Ok _ => True
  | Raise e => is_Exception e = false /\ exists s v, set_state env s v = Raise e
  end.
Proof.
  unfold_M. destruct sensors as [d|]; crunch; try done; split; eauto.
Qed.

(** X1. [publish_counts_to_mqtt] returns [None] or lets out an interrupt
    that [set_state] raised: no ordinary exception (missing handle, missing
    key, broker failure) leaves it. *)
Theorem X1_publish_contains_exceptions env sensors counts :
  match outcome (publish_counts_to_mqtt env sensors counts) with
  | Ok _ => True
  | Raise e => is_Exception e = false /\ exists s v, set_state env s v = Raise e
  end.
Proof.
  pose proof (publish_escape env sensors counts) as Hp.
  destruct (outcome (publish_counts_to_mqtt env sensors counts)) as [[]|e];
    [exact I | exact Hp].
Qed.

(** ** perform_detection, case by case *)

Lemma count_boxes_only_Exception nms bxs :
  forall counts, only_Exception (count_boxes nms bxs counts).
Proof.
  induction bxs as [|b bxs IH]; intros counts e; simpl; [done |].
  destruct (nms !! b); [| by intros [= <-]].
  destruct (counts !! _); [apply IH | by intros [= <-]].
Qed.

(** The body of the [try], by what the detector answers. *)
Lemma detection_body_cases env model image sensors :
  detection_body env model image sensors =
  match yolo_predict env model image with
  | Raise e => ([EvLog DEBUG MStartingDetection; EvPredict image "cpu"], Raise e)
  | Ok [] =>
      ([EvLog DEBUG MStartingDetection; EvPredict image "cpu"],
       Raise (IndexError "list index out of range"))
  | Ok (r :: _) =>
      match outcome (count_boxes (names r) (boxes r) (zero_for_names (names r))) with
      | Raise e => ([EvLog DEBUG MStartingDetection; EvPredict image "cpu"], Raise e)
      | Ok counts =>
          ([EvLog DEBUG MStartingDetection; EvPredict image "cpu"]
             ++ trace (publish_counts_to_mqtt env sensors counts),
           match outcome (publish_counts_to_mqtt env sensors counts) with
           | Ok _ => Ok counts
           | Raise e => Raise e
           end)
      end
  end.
Proof.
  unfold detection_body, call, log, first_result.
  destruct (yolo_predict env model image) as [[|r rest]|e]; simpl; [done | | done].
  pose proof (count_boxes_trace (names r) (boxes r) (zero_for_names (names r))) as Ht.
  destruct (count_boxes (names r) (boxes r) (zero_for_names (names r))) as [t [counts|e]];
    simpl in *; subst t; [| done].
  destruct (publish_counts_to_mqtt env sensors counts) as [tp [[]|e]]; simpl;
    by rewrite ?app_nil_r.
Qed.

(** What leaves the body of the [try] as an interrupt was raised by the
    detector or by a sensor write. *)
Lemma detection_body_escape env model image sensors e :
  outcome (detection_body env model image sensors) = Raise e ->
  is_Exception e = false ->
  yolo_predict env model image = Raise e \/ exists s v, set_state env s v = Raise e.
Proof.
  rewrite detection_body_cases. intros Hraise He.
  destruct (yolo_predict env model image) as [[|r rest]|e0]; simpl in Hraise.
  - injection Hraise as <-. discriminate He.
  - destruct (outcome (count_boxes _ _ _)) as [counts|e1] eqn:Hc; simpl in Hraise.
    + pose proof (publish_escape env sensors counts) as Hp.
      destruct (outcome (publish_counts_to_mqtt env sensors counts)) as [[]|e2];
        [discriminate Hraise |].
      injection Hraise as ->. right. apply Hp.
    + injection Hraise as ->. apply count_boxes_only_Exception in Hc. congruence.
  - injection Hraise as ->. by left.
Qed.

(** What [perform_detection] lets out is an interrupt raised by the
    detector or by [set_state]. *)
Lemma perform_detection_escape env model image sensors :
  match outcome (perform_detection env model image sensors) with
  | Ok _ => True
  | Raise e =>
      is_Exception e = false /\
      (yolo_predict env model image = Raise e \/
       exists s v, set_state env s v = Raise e)
  end.
Proof.
  unfold perform_detection. rewrite outcome_try_except.
  destruct (outcome (detection_body env model image sensors)) as [counts|e] eqn:Hb;
    [done |].
  unfold except_Exception at 1. destruct (is_Exception e) eqn:He.
  - rewrite !outcome_bind. simpl.
    destruct (truthy sensors); [| done].
    rewrite outcome_try_except.
    pose proof (publish_escape env sensors zero_counts) as Hp.
    destruct (outcome (publish_counts_to_mqtt env sensors zero_counts)) as [[]|e'];
      [done |].
    destruct Hp as [He' Hs]. unfold except_Exception. rewrite He'. eauto.
  - split; [done |]. by apply (detection_body_escape env model image sensors).
Qed.

(** X2. [perform_detection] returns a count map or lets out an interrupt
    raised by the detector or by a sensor write: no ordinary exception
    leaves it, wherever it was raised. *)
Theorem X2_perform_detection_contains_exceptions env model image sensors :
  match outcome (perform_detection env model image sensors) with
  | Ok _ => True
  | Raise e =>
      is_Exception e = false /\
      (yolo_predict env model image = Raise e \/
       exists s v, set_state env s v = Raise e)
  end.
Proof.
  pose proof (perform_detection_escape env model image sensors) as Hp.
  destruct (outcome (perform_detection env model image sensors)) as [counts|e];
    [exact I | exact Hp].
Qed.

(** ** No detection is lost *)

Lemma total_insert (m : gmap string nat) k v :
  m !! k = None -> total (<[k := v]> m) = v + total m.
Proof.
  intros Hk. unfold total. rewrite map_fold_insert_L; [done | | done].
  intros. lia.
Qed.

Lemma total_update (m : gmap string nat) k c :
  m !! k = Some c -> total (<[k := S c]> m) = S (total m).
Proof.
  intros Hk. rewrite <- insert_delete_eq.
  rewrite total_insert by apply lookup_delete_eq.
  assert (Hm : total m = c + total (delete k m)).
  { unfold total. apply (map_fold_delete_L _ _ k c m); [| done]. intros. lia. }
  lia.
Qed.

Lemma total_zero (m : gmap string nat) :
  (forall k v, m !! k = Some v -> v = 0) -> total m = 0.
Proof.
  induction m as [|k v m Hk IH] using map_ind; intros Hz; [done |].
  rewrite total_insert by done.
  rewrite (Hz k v) by apply lookup_insert_eq.
  apply IH. intros k' v' Hk'. apply (Hz k' v').
  rewrite lookup_insert_ne; [done |]. intros ->. congruence.
Qed.

(** Each box the loop gets through adds one to the total. *)
Lemma count_boxes_total nms bxs :
  forall counts counts' : gmap string nat,
    outcome (count_boxes nms bxs counts) = Ok counts' ->
    total counts' = total counts + length bxs.
Proof.
  induction bxs as [|b bxs IH]; intros counts counts'; simpl.
  - intros [= <-]. lia.
  - destruct (nms !! b) as [cn|]; [| done].
    destruct (counts !! cn) as [c|] eqn:Hc; [| done].
    intros Hrun. rewrite (IH _ _ Hrun), (total_update _ _ _ Hc). lia.
Qed.

(** X3. Whenever [perform_detection] returns a map that is not the
    fallback of its [except] clause, the counts of that map add up to the
    number of boxes of the first result: every box is counted once. *)
Theorem X3_counts_add_up env model image sensors counts :
  outcome (perform_detection env model image sensors) = Ok counts ->
  (forall e, outcome (detection_body env model image sensors) <> Raise e) ->
  exists r rest,
    yolo_predict env model image = Ok (r :: rest) /\
    total counts = length (boxes r).
Proof.
  unfold perform_detection. rewrite outcome_try_except.
  rewrite detection_body_cases.
  destruct (yolo_predict env model image) as [[|r rest]|e]; simpl.
  - intros _ Hno. by destruct (Hno (IndexError "list index out of range")).
  - destruct (outcome (count_boxes _ _ _)) as [c|e] eqn:Hc; simpl.
    + destruct (outcome (publish_counts_to_mqtt env sensors c)) as [[]|e]; simpl.
      * intros [= <-] _. exists r, rest. split; [done |].
        rewrite (count_boxes_total _ _ _ _ Hc).
        rewrite total_zero; [done |].
        intros k v Hk. by apply zero_for_names_Some in Hk as [-> _].
      * intros _ Hno. by destruct (Hno e).
    + intros _ Hno. by destruct (Hno e).
  - intros _ Hno. by destruct (Hno e).
Qed.

Lemma X3_witness :
  exists r rest,
    yolo_predict calm_env the_model snapshot = Ok (r :: rest) /\
    total (<["egg" := 4]> (<["chicken" := 2]> (<["rooster" := 0]> ∅))) = length (boxes r).
Proof.
  apply (X3_counts_add_up calm_env the_model snapshot (Some both_sensors)).
  - vm_compute. reflexivity.
  - intros e. vm_compute. discriminate.
Defined.

(** ** One publication per call *)

Lemma publish_at_most_two env sensors counts :
  count_if is_set_state (trace (publish_counts_to_mqtt env sensors counts)) <= 2.
Proof. unfold_M. destruct sensors as [d|]; crunch; simpl; lia. Qed.

(** The inner [try] around the fallback publication never sees an
    exception: its trace is that of the publication. *)
Lemma fallback_publish_trace env sensors :
  trace (try_except
           (publish_counts_to_mqtt env sensors zero_counts)
           (except_Exception (fun mqtt_error =>
              log ERROR (MFailedPublishZero mqtt_error)))) =
  trace (publish_counts_to_mqtt env sensors zero_counts).
Proof.
  rewrite trace_try_except.
  pose proof (publish_escape env sensors zero_counts) as Hp.
  destruct (outcome (publish_counts_to_mqtt env sensors zero_counts)) as [[]|e];
    [by rewrite app_nil_r |].
  destruct Hp as [He _]. unfold except_Exception. rewrite He.
  by rewrite app_nil_r.
Qed.

(** The trace of [perform_detection]: that of the body, then, when the
    body raised an ordinary exception, that of the [except] clause. *)
Lemma perform_detection_trace env model image sensors :
  trace (perform_detection env model image sensors) =
  trace (detection_body env model image sensors)
    ++ match outcome (detection_body env model image sensors) with
       | Ok _ => []
       | Raise e =>
           if is_Exception e
           then [EvPrintExc; EvLog ERROR (MDetectionFailed e)]
                  ++ (if truthy sensors
                      then trace (publish_counts_to_mqtt env sensors zero_counts)
                      else [])
           else []
       end.
Proof.
  unfold perform_detection. rewrite trace_try_except.
  destruct (outcome (detection_body env model image sensors)) as [c|e]; [done |].
  unfold except_Exception at 1. destruct (is_Exception e); [| done].
  f_equal. rewrite !trace_bind. simpl.
  destruct (truthy sensors); simpl; [| done].
  rewrite outcome_try_except, fallback_publish_trace.
  pose proof (publish_escape env sensors zero_counts) as Hp.
  destruct (outcome (publish_counts_to_mqtt env sensors zero_counts)) as [[]|e'];
    simpl; [by rewrite app_nil_r |].
  destruct Hp as [He _]. unfold except_Exception. rewrite He. simpl.
  by rewrite app_nil_r.
Qed.

Lemma detection_body_writes env model image sensors :
  count_if is_set_state (trace (detection_body env model image sensors)) <= 2 /\
  count_if is_print_exc (trace (detection_body env model image sensors)) = 0 /\
  (forall e,
     outcome (detection_body env model image sensors) = Raise e ->
     is_Exception e = true ->
     count_if is_set_state (trace (detection_body env model image sensors)) = 0).
Proof.
  rewrite detection_body_cases.
  destruct (yolo_predict env model image) as [[|r rest]|e0]; simpl;
    [repeat split; lia | | repeat split; lia].
  destruct (outcome (count_boxes _ _ _)) as [counts|e1]; simpl;
    [| repeat split; lia].
  split; [apply publish_at_most_two |]. split.
  - apply (silent_count is_print_exc (publish_counts_to_mqtt env sensors counts)).
    apply silent_publish; [by intros lv [] | done].
  - intros e Hraise He.
    pose proof (publish_escape env sensors counts) as Hp.
    destruct (outcome (publish_counts_to_mqtt env sensors counts)) as [[]|e2];
      [discriminate Hraise |].
    injection Hraise as ->. destruct Hp as [He2 _]. congruence.
Qed.

(** X4. A call of [perform_detection] writes to a sensor at most twice,
    and never mixes real counts with the fallback: once the traceback of
    the [except] clause has been printed, every value written in that call
    is 0. *)
Theorem X4_one_publication_per_call env model image sensors :
  count_if is_set_state (trace (perform_detection env model image sensors)) <= 2 /\
  (EvPrintExc ∈ trace (perform_detection env model image sensors) ->
   forall s v,
     EvSetState s v ∈ trace (perform_detection env model image sensors) -> v = 0).
Proof.
  rewrite perform_detection_trace.
  destruct (detection_body_writes env model image sensors) as (Htwo & Hnox & Hnone).
  assert (Hbody : EvPrintExc ∉ trace (detection_body env model image sensors)).
  { intros Hin. by pose proof (proj1 (count_if_0 _ _) Hnox _ Hin). }
  destruct (outcome (detection_body env model image sensors)) as [c|e].
  { rewrite app_nil_r. split; [done |]. intros Hin. by destruct Hbody. }
  destruct (is_Exception e) eqn:He.
  2: { rewrite app_nil_r. split; [done |]. intros Hin. by destruct Hbody. }
  specialize (Hnone e eq_refl He). split.
  - rewrite count_if_app, Hnone. simpl.
    destruct (truthy sensors); simpl; [apply publish_at_most_two | lia].
  - intros _ s v Hin. apply elem_of_app in Hin as [Hin | Hin].
    { by pose proof (proj1 (count_if_0 _ _) Hnone _ Hin). }
    do 2 (apply elem_of_cons in Hin as [Hin | Hin]; [done |]).
    destruct (truthy sensors); [| by apply elem_of_nil in Hin].
    apply publish_writes in Hin as [[_ Hc] | [_ Hc]];
      rewrite zero_counts_lookup in Hc; case_decide; by simplify_eq.
Qed.

Lemma X4_witness :
  EvPrintExc ∈ trace (perform_detection stray_class_env the_model snapshot
                        (Some both_sensors)) /\
  count_if is_set_state
    (trace (perform_detection stray_class_env the_model snapshot
              (Some both_sensors))) <= 2 /\
  forall s v,
    EvSetState s v ∈ trace (perform_detection stray_class_env the_model snapshot
                              (Some both_sensors)) ->
    v = 0.
Proof.
  assert (Hin : EvPrintExc ∈ trace (perform_detection stray_class_env the_model
                                      snapshot (Some both_sensors))).
  { vm_compute. do 2 apply list_elem_of_further. apply list_elem_of_here. }
  destruct (X4_one_publication_per_call stray_class_env the_model snapshot
              (Some both_sensors)) as [Htwo Hzero].
  split; [exact Hin |]. split; [exact Htwo | exact (Hzero Hin)].
Defined.

(** X5. The inner [except] clause of [perform_detection] is never
    entered: "Failed to publish zero counts" is never logged, because
    [publish_counts_to_mqtt] has already caught whatever it would catch. *)
Theorem X5_inner_except_unreachable env model image sensors :
  count_if is_failed_publish_zero
    (trace (perform_detection env model image sensors)) = 0.
Proof.
  rewrite perform_detection_trace, count_if_app.
  assert (Hpub : forall counts,
            count_if is_failed_publish_zero
              (trace (publish_counts_to_mqtt env sensors counts)) = 0).
  { intros counts. clear. unfold_M. destruct sensors as [d|]; crunch; done. }
  assert (Hbody : count_if is_failed_publish_zero
                    (trace (detection_body env model image sensors)) = 0).
  { rewrite detection_body_cases.
    destruct (yolo_predict env model image) as [[|r rest]|e0]; simpl; try done.
    destruct (outcome (count_boxes _ _ _)) as [counts|e1]; simpl; [| done].
    apply Hpub. }
  rewrite Hbody.
  destruct (outcome (detection_body env model image sensors)) as [c|e]; [done |].
  destruct (is_Exception e); [| done]. simpl.
  destruct (truthy sensors); [apply Hpub | done].
Qed.

(** ** Class tables without an egg or a chicken *)

(** X6. When the class table of the detector has no class named "egg",
    a successful detection writes to no sensor at all, not even the chicken
    count: [counts["egg"]] raises [KeyError] before the first write, and
    the function logs it and returns the counts. *)
Theorem X6_no_egg_class_no_publication env model image d se r rest :
  yolo_predict env model image = Ok (r :: rest) ->
  (forall b, b ∈ boxes r -> is_Some (names r !! b)) ->
  (forall i, names r !! i <> Some "egg") ->
  d !! "eggs" = Some se ->
  exists counts : gmap string nat,
    perform_detection env model image (Some d) =
      ([EvLog DEBUG MStartingDetection; EvPredict image "cpu";
        EvLog ERROR (MFailedPublish (KeyError (KStr "egg")))],
       Ok counts) /\
    forall nm i, names r !! i = Some nm ->
      counts !! nm = Some (detections_named r nm).
Proof.
  intros Hp Hres Hnoegg Hse.
  destruct (detection_body_counts env model image (Some d) r rest Hp Hres)
    as (counts & Hbody & Hlook).
  assert (Hegg : counts !! "egg" = None).
  { by rewrite Hlook, (zero_for_names_unknown _ _ Hnoegg). }
  assert (Hpub : publish_counts_to_mqtt env (Some d) counts =
                 ([EvLog ERROR (MFailedPublish (KeyError (KStr "egg")))], Ok tt)).
  { unfold_M. by rewrite Hse, Hegg. }
  exists counts. split.
  - unfold perform_detection. rewrite Hbody, Hpub. done.
  - intros nm i Hi. by rewrite Hlook, (zero_for_names_known _ _ _ Hi).
Qed.

Lemma X6_witness :
  exists counts : gmap string nat,
    perform_detection eggless_env the_model snapshot (Some both_sensors) =
      ([EvLog DEBUG MStartingDetection; EvPredict snapshot "cpu";
        EvLog ERROR (MFailedPublish (KeyError (KStr "egg")))],
       Ok counts) /\
    counts !! "chicken" = Some 2.
Proof.
  destruct (X6_no_egg_class_no_publication eggless_env the_model snapshot
              both_sensors {| sensor_settings := egg_settings default_config |}
              {| names := <[2%Z := "rooster"]> (<[1%Z := "chicken"]> ∅);
                 boxes := [1; 2; 1]%Z |} [])
    as (counts & Hrun & Hlook).
  - reflexivity.
  - intros b Hb.
    repeat (apply elem_of_cons in Hb as [-> | Hb]; [by eexists |]).
    by apply elem_of_nil in Hb.
  - intros i Hi.
    apply (elem_of_map_to_list (<[2%Z := "rooster"]> (<[1%Z := "chicken"]> ∅))) in Hi.
    vm_compute in Hi.
    repeat (apply elem_of_cons in Hi as [Hi | Hi]; [discriminate Hi |]).
    by apply elem_of_nil in Hi.
  - reflexivity.
  - exists counts. split; [exact Hrun |]. apply (Hlook "chicken" 1%Z). reflexivity.
Defined.

(** X7. When the class table has "egg" but no "chicken", the egg sensor
    is written with the egg count and then [counts["chicken"]] raises
    [KeyError]: the chicken sensor is not written and the failure is
    logged. *)
Theorem X7_no_chicken_class_half_publication env model image d se sc r rest ie :
  yolo_predict env model image = Ok (r :: rest) ->
  (forall b, b ∈ boxes r -> is_Some (names r !! b)) ->
  names r !! ie = Some "egg" ->
  (forall i, names r !! i <> Some "chicken") ->
  d !! "eggs" = Some se ->
  d !! "chickens" = Some sc ->
  set_state env se (detections_named r "egg") = Ok tt ->
  exists counts : gmap string nat,
    perform_detection env model image (Some d) =
      ([EvLog DEBUG MStartingDetection; EvPredict image "cpu";
        EvSetState se (detections_named r "egg");
        EvLog ERROR (MFailedPublish (KeyError (KStr "chicken")))],
       Ok counts).
Proof.
  intros Hp Hres Hie Hnoch Hse Hsc Hok.
  destruct (detection_body_counts env model image (Some d) r rest Hp Hres)
    as (counts & Hbody & Hlook).
  assert (Hegg : counts !! "egg" = Some (detections_named r "egg")).
  { by rewrite Hlook, (zero_for_names_known _ _ _ Hie). }
  assert (Hch : counts !! "chicken" = None).
  { by rewrite Hlook, (zero_for_names_unknown _ _ Hnoch). }
  exists counts. unfold perform_detection. rewrite Hbody.
  assert (Hpub : publish_counts_to_mqtt env (Some d) counts =
                 ([EvSetState se (detections_named r "egg");
                   EvLog ERROR (MFailedPublish (KeyError (KStr "chicken")))], Ok tt)).
  { unfold_M. by rewrite Hse, Hegg, Hok, Hsc, Hch. }
  by rewrite Hpub.
Qed.

Lemma X7_witness :
  exists counts : gmap string nat,
    perform_detection chickenless_env the_model snapshot (Some both_sensors) =
      ([EvLog DEBUG MStartingDetection; EvPredict snapshot "cpu";
        EvSetState {| sensor_settings := egg_settings default_config |} 2;
        EvLog ERROR (MFailedPublish (KeyError (KStr "chicken")))],
       Ok counts).
Proof.
  destruct (X7_no_chicken_class_half_publication chickenless_env the_model snapshot
              both_sensors {| sensor_settings := egg_settings default_config |}
              {| sensor_settings := chicken_settings default_config |}
              {| names := <[2%Z := "rooster"]> (<[0%Z := "egg"]> ∅);
                 boxes := [0; 2; 0]%Z |} [] 0%Z)
    as [counts Hrun]; [.. | exists counts; rewrite Hrun; reflexivity].
  - reflexivity.
  - intros b Hb.
    repeat (apply elem_of_cons in Hb as [-> | Hb]; [by eexists |]).
    by apply elem_of_nil in Hb.
  - reflexivity.
  - intros i Hi.
    apply (elem_of_map_to_list (<[2%Z := "rooster"]> (<[0%Z := "egg"]> ∅))) in Hi.
    vm_compute in Hi.
    repeat (apply elem_of_cons in Hi as [Hi | Hi]; [discriminate Hi |]).
    by apply elem_of_nil in Hi.
  - reflexivity.
  - reflexivity.
  - reflexivity.
Defined.

(** ** load_image and load_model *)

(** X8. [load_image] logs "Failed to load image" exactly when it raises
    an ordinary exception, and then once; when it returns an image its last
    event is the record of that image's size. *)
Theorem X8_load_image_logs_iff_fails cfg env :
  count_if is_failed_to_load_image (trace (load_image cfg env)) =
    match outcome (load_image cfg env) with
    | Ok _ => 0
    | Raise e => if is_Exception e then 1 else 0
    end /\
  match outcome (load_image cfg env) with
  | Ok image =>
      last (trace (load_image cfg env)) = Some (EvLog DEBUG (MImageLoaded (size image)))
  | Raise _ => True
  end.
Proof.
  unfold load_image, raise_for_status, try_except, except_Exception, bind, call,
    log, raise, ret, trace, outcome.
  destruct (String.eqb _ _); crunch; simpl in *; simplify_eq; done.
Qed.

(** ** The events of the loop *)

Section TryEvents.
Variable p : event -> bool.
Hypothesis p_try : forall ev, try_emits ev = true -> p ev = false.

Lemma p_try_log lv m : is_memory_after_gc m = false -> p (EvLog lv m) = false.
Proof. intros _. by apply p_try. Qed.

Lemma silent_cycle_body cfg env model sensors n :
  silent p (cycle_body cfg env model sensors n).
Proof.
  unfold cycle_body, cycle_work, gc_step, get_memory_usage.
  apply silent_bind.
  - apply silent_bind; [by apply silent_call, p_try | intros rss].
    apply silent_bind; [by apply silent_log, p_try | intros _].
    apply silent_bind.
    { apply silent_load_image; [apply p_try_log | intros; by apply p_try ..]. }
    intros image. apply silent_bind; [| intros _; apply silent_ret].
    apply silent_perform_detection;
      [apply p_try_log | intros; by apply p_try .. | by apply p_try].
  - intros _. apply silent_bind; [| intros _; apply silent_ret].
    destruct (Nat.eqb _ _); [| apply silent_ret].
    apply silent_bind; [by apply silent_call, p_try | intros _].
    apply silent_bind; [by apply silent_call, p_try | intros rss].
    by apply silent_log, p_try.
Qed.

(** Whatever the [try] statement of the loop does, it produces only
    events of [try_emits]. *)
Lemma silent_cycle_try_events cfg env model sensors n :
  silent p (cycle_try cfg env model sensors n).
Proof.
  unfold cycle_try. apply silent_try; [apply silent_cycle_body |].
  intros e h. destruct e; simpl; intros [= <-]; unfold silent; simpl;
    repeat constructor; by apply p_try.
Qed.

Lemma silent_monitor_events cfg w model sensors fuel :
  (forall s, p (EvSleep s) = false) ->
  forall c, silent p (monitor cfg w model sensors fuel c).
Proof.
  intros Hsleep. induction fuel as [|fuel IH]; intros c; [apply silent_ret |].
  cbn [monitor]. apply silent_bind; [apply silent_cycle_try_events |].
  intros [|]; [| apply silent_ret].
  apply silent_bind; [| intros _; apply IH].
  unfold wait. apply silent_bind; [by apply silent_log, p_try | intros _].
  by apply silent_call.
Qed.
End TryEvents.

(** ** main, split at the loop *)

Lemma main_split cfg w fuel :
  main cfg w fuel =
  (s <- startup cfg w;;
   match s with
   | None => ret StartupAborted
   | Some (model, sensors) =>
       ex <- monitor cfg w model sensors fuel 0;;
       finish ex
   end).
Proof.
  unfold main, startup, finish.
  destruct (try_except (bind (load_model w) _) _) as [t1 [[model|]|e1]]; simpl;
    [| by rewrite ?app_nil_r | done].
  destruct (try_except (bind (setup_mqtt_sensors cfg w) _) _) as [t2 [sensors|e2]];
    simpl; [| done].
  destruct (monitor cfg w model sensors fuel 0) as [t3 [[|c]|e3]]; simpl;
    rewrite ?app_nil_r, <- ?app_assoc; simpl; by rewrite <- ?app_assoc.
Qed.

(** What [startup] hands to the loop: the loaded model, and either no
    handles or the two registered sensors. *)
Lemma startup_result cfg w model sensors :
  outcome (startup cfg w) = Ok (Some (model, sensors)) ->
  yolo_load w = Ok model /\
  (sensors = None \/ sensors = Some (registered_sensors cfg)).
Proof.
  unfold startup, load_model, setup_mqtt_sensors, new_Sensor, get_memory_usage,
    registered_sensors, try_except, except_Exception, bind, call, log, raise, ret,
    outcome.
  intros Hrun. crunch; simpl in *; simplify_eq; eauto.
Qed.

Lemma startup_never_Exception cfg w : never_Exception (startup cfg w).
Proof.
  unfold startup.
  apply never_Exception_bind; [apply never_Exception_log | intros _].
  apply never_Exception_bind.
  { apply never_Exception_try. intros e.
    apply never_Exception_bind; [apply never_Exception_log | intros _].
    apply never_Exception_ret. }
  intros [model|]; [| apply never_Exception_ret].
  apply never_Exception_bind.
  { apply never_Exception_try. intros e.
    repeat (apply never_Exception_bind; [apply never_Exception_log | intros _]).
    apply never_Exception_ret. }
  intros sensors.
  apply never_Exception_bind; [apply never_Exception_log | intros _].
  apply never_Exception_ret.
Qed.

Lemma startup_events cfg w :
  count_if is_yolo_load (trace (startup cfg w)) = 1 /\
  count_if is_registration (trace (startup cfg w)) <= 2 /\
  count_if is_sleep (trace (startup cfg w)) = 0.
Proof.
  unfold startup, load_model, setup_mqtt_sensors, new_Sensor, get_memory_usage,
    try_except, except_Exception, bind, call, log, raise, ret, trace.
  crunch; simpl; repeat split; lia.
Qed.

(** ** How an iteration and the loop end *)

Lemma cycle_body_flow cfg env model sensors n fl :
  outcome (cycle_body cfg env model sensors n) = Ok fl -> fl = Next.
Proof.
  unfold cycle_body. rewrite !outcome_bind.
  destruct (outcome (cycle_work cfg env model sensors n)); [| done].
  destruct (outcome (gc_step env n)); [| done].
  simpl. by intros [= <-].
Qed.

(** The [try] statement of the loop turns every ordinary exception into
    "go on", [KeyboardInterrupt] into [break], and lets the rest through. *)
Lemma cycle_try_outcome cfg env model sensors n :
  outcome (cycle_try cfg env model sensors n) =
  match outcome (cycle_body cfg env model sensors n) with
  | Ok _ => Ok Next
  | Raise KeyboardInterrupt => Ok Break
  | Raise e => if is_Exception e then Ok Next else Raise e
  end.
Proof.
  change (cycle_try cfg env model sensors n)
    with (try_except (cycle_body cfg env model sensors n) cycle_clauses).
  rewrite outcome_try_except.
  destruct (outcome (cycle_body cfg env model sensors n)) as [fl|e] eqn:Hb.
  - by rewrite (cycle_body_flow _ _ _ _ _ _ Hb).
  - by destruct e.
Qed.

Lemma monitor_outcome cfg w model sensors fuel c :
  outcome (monitor cfg w model sensors (S fuel) c) =
  match outcome (cycle_try cfg (cycle_env w (c + 1)) model sensors (c + 1)) with
  | Ok Break => Ok Broke
  | Ok Next =>
      match sleep (cycle_env w (c + 1)) with
      | Ok _ => outcome (monitor cfg w model sensors fuel (c + 1))
      | Raise e => Raise e
      end
  | Raise e => Raise e
  end.
Proof.
  cbn [monitor]. rewrite outcome_bind.
  destruct (outcome (cycle_try _ _ _ _ _)) as [[|]|e]; [| done | done].
  unfold wait. rewrite !outcome_bind. simpl.
  by destruct (sleep (cycle_env w (c + 1))).
Qed.

Lemma monitor_trace cfg w model sensors fuel c :
  trace (monitor cfg w model sensors (S fuel) c) =
  trace (cycle_try cfg (cycle_env w (c + 1)) model sensors (c + 1))
    ++ match outcome (cycle_try cfg (cycle_env w (c + 1)) model sensors (c + 1)) with
       | Ok Next =>
           [EvLog DEBUG (MWaiting DETECTION_INTERVAL); EvSleep DETECTION_INTERVAL]
             ++ match sleep (cycle_env w (c + 1)) with
                | Ok _ => trace (monitor cfg w model sensors fuel (c + 1))
                | Raise _ => []
                end
       | _ => []
       end.
Proof.
  cbn [monitor]. rewrite trace_bind. f_equal.
  destruct (outcome (cycle_try _ _ _ _ _)) as [[|]|e]; [| done | done].
  unfold wait. rewrite !trace_bind, !outcome_bind. simpl.
  by destruct (sleep (cycle_env w (c + 1))).
Qed.

(** ** The loop survives every ordinary exception *)










(** ** Leaving the loop *)

Lemma cycle_try_break cfg env model sensors n :
  outcome (cycle_try cfg env model sensors n) = Ok Break ->
  outcome (cycle_body cfg env model sensors n) = Raise KeyboardInterrupt /\
  trace (cycle_try cfg env model sensors n) =
    trace (cycle_body cfg env model sensors n) ++ [EvLog INFO MInterrupt].
Proof.
  rewrite cycle_try_outcome.
  change (cycle_try cfg env model sensors n)
    with (try_except (cycle_body cfg env model sensors n) cycle_clauses).
  rewrite trace_try_except.
  destruct (outcome (cycle_body cfg env model sensors n)) as [fl|e]; [done |].
  destruct e; simpl; done.
Qed.

Lemma monitor_break cfg w model sensors fuel :
  forall c,
    outcome (monitor cfg w model sensors fuel c) = Ok Broke ->
    (exists n,
       c < n <= c + fuel /\
       outcome (cycle_body cfg (cycle_env w n) model sensors n)
         = Raise KeyboardInterrupt) /\
    exists t, trace (monitor cfg w model sensors fuel c) = t ++ [EvLog INFO MInterrupt].
Proof.
  induction fuel as [|fuel IH]; intros c; [done |].
  rewrite monitor_outcome, monitor_trace.
  destruct (outcome (cycle_try _ _ _ _ _)) as [[|]|e] eqn:Ht; [| | done].
  - destruct (sleep (cycle_env w (c + 1))) as [[]|e]; [| done].
    intros Hrest. destruct (IH (c + 1) Hrest) as [(n & Hn & Hki) (t & Htr)].
    split; [exists n; split; [lia | done] |].
    rewrite Htr.
    exists (trace (cycle_try cfg (cycle_env w (c + 1)) model sensors (c + 1))
              ++ [EvLog DEBUG (MWaiting DETECTION_INTERVAL);
                  EvSleep DETECTION_INTERVAL] ++ t).
    by rewrite <- !app_assoc.
  - intros _. apply cycle_try_break in Ht as [Hki Htr]. split.
    + exists (c + 1). split; [lia | done].
    + rewrite Htr, app_nil_r.
      by exists (trace (cycle_body cfg (cycle_env w (c + 1)) model sensors (c + 1))).
Qed.

(** X10. [main] returns normally after the loop only when a
    [KeyboardInterrupt] was raised inside the [try] statement of some
    iteration; its trace then ends with the interrupt record, the shutdown
    record and the flush of the stream handler.  No failure of the image
    source, the detector or the broker ends the loop. *)
Theorem X10_shutdown_only_on_interrupt cfg w fuel :
  outcome (main cfg w fuel) = Ok ShutDown ->
  (exists model sensors n,
     yolo_load w = Ok model /\
     1 <= n <= fuel /\
     outcome (cycle_body cfg (cycle_env w n) model sensors n)
       = Raise KeyboardInterrupt) /\
  exists t,
    trace (main cfg w fuel) =
    t ++ [EvLog INFO MInterrupt; EvLog INFO MShutdownCompleted; EvFlush StreamHandler].
Proof.
  rewrite main_split, outcome_bind, trace_bind.
  destruct (outcome (startup cfg w)) as [[[model sensors]|]|e] eqn:Hs;
    [| done | done].
  rewrite outcome_bind, trace_bind.
  destruct (outcome (monitor cfg w model sensors fuel 0)) as [[|c]|e] eqn:Hm;
    [| done | done].
  intros _. apply monitor_break in Hm as [(n & Hn & Hki) (t & Htr)].
  apply startup_result in Hs as [Hload _]. split.
  - exists model, sensors, n. split; [done |]. split; [lia | done].
  - rewrite Htr. exists (trace (startup cfg w) ++ t). simpl.
    by rewrite <- !app_assoc.
Qed.

Lemma X10_witness :
  outcome (main default_config interrupted_load_world 5) = Ok ShutDown /\
  exists model sensors n,
    yolo_load interrupted_load_world = Ok model /\
    1 <= n <= 5 /\
    outcome (cycle_body default_config (cycle_env interrupted_load_world n)
               model sensors n) = Raise KeyboardInterrupt.
Proof.
  split; [vm_compute; reflexivity |].
  apply (X10_shutdown_only_on_interrupt default_config interrupted_load_world 5).
  vm_compute. reflexivity.
Defined.

(** ** One sleep per iteration *)

Lemma monitor_sleeps cfg w model sensors fuel :
  forall c c',
    outcome (monitor cfg w model sensors fuel c) = Ok (StillLooping c') ->
    count_if is_sleep (trace (monitor cfg w model sensors fuel c)) = fuel.
Proof.
  induction fuel as [|fuel IH]; intros c c'; [done |].
  rewrite monitor_outcome, monitor_trace, count_if_app.
  rewrite (proj1 (silent_count is_sleep _)
             (silent_cycle_try_events is_sleep ltac:(by intros []) cfg _ model
                sensors (c + 1))).
  destruct (outcome (cycle_try _ _ _ _ _)) as [[|]|e]; [| done | done].
  destruct (sleep (cycle_env w (c + 1))) as [[]|e]; [| done].
  intros Hrest. simpl. by rewrite (IH _ _ Hrest).
Qed.

(** X11. While [main] is running, every iteration, failed or not, has
    been followed by exactly one sleep: after [n] iterations the trace holds
    [n] sleeps, so a failing cycle is never retried without waiting. *)
Theorem X11_one_sleep_per_iteration cfg w fuel n :
  outcome (main cfg w fuel) = Ok (StillRunning n) ->
  n = fuel /\ count_if is_sleep (trace (main cfg w fuel)) = fuel.
Proof.
  rewrite main_split, outcome_bind, trace_bind, count_if_app.
  destruct (startup_events cfg w) as (_ & _ & Hnosleep). rewrite Hnosleep.
  destruct (outcome (startup cfg w)) as [[[model sensors]|]|e]; [| done | done].
  rewrite outcome_bind, trace_bind, count_if_app.
  destruct (outcome (monitor cfg w model sensors fuel 0)) as [[|c]|e] eqn:Hm;
    [done | | done].
  simpl. intros [= <-].
  rewrite (monitor_sleeps _ _ _ _ _ _ _ Hm).
  apply monitor_counts_attempts in Hm. split; lia.
Qed.

Lemma X11_witness :
  outcome (main default_config tenth_fails_world 12) = Ok (StillRunning 12) /\
  count_if is_sleep (trace (main default_config tenth_fails_world 12)) = 12.
Proof.
  split; [vm_compute; reflexivity |].
  apply (X11_one_sleep_per_iteration default_config tenth_fails_world 12 12).
  vm_compute. reflexivity.
Defined.

(** ** Model and sensors are set up once *)

Lemma finish_events ex :
  count_if is_yolo_load (trace (finish ex)) = 0 /\
  count_if is_registration (trace (finish ex)) = 0.
Proof. by destruct ex. Qed.

(** X12. Whatever happens and however long the loop runs, [main] loads
    the model exactly once and creates at most two sensors: the loop never
    reloads the model and never retries the registration. *)
Theorem X12_setup_happens_once cfg w fuel :
  count_if is_yolo_load (trace (main cfg w fuel)) = 1 /\
  count_if is_registration (trace (main cfg w fuel)) <= 2.
Proof.
  rewrite main_split, trace_bind, !count_if_app.
  destruct (startup_events cfg w) as (Hload & Hreg & _). rewrite Hload.
  destruct (outcome (startup cfg w)) as [[[model sensors]|]|e]; simpl;
    [| lia | lia].
  rewrite trace_bind, !count_if_app.
  rewrite (proj1 (silent_count is_yolo_load _)
             (silent_monitor_events is_yolo_load ltac:(by intros []) cfg w model
                sensors fuel ltac:(done) 0)).
  rewrite (proj1 (silent_count is_registration _)
             (silent_monitor_events is_registration ltac:(by intros []) cfg w model
                sensors fuel ltac:(done) 0)).
  destruct (outcome (monitor cfg w model sensors fuel 0)) as [ex|e]; simpl; [| lia].
  destruct (finish_events ex) as [-> ->]. lia.
Qed.

(** ** What can end the process *)

Lemma never_Exception_cycle_try cfg env model sensors n :
  never_Exception (cycle_try cfg env model sensors n).
Proof.
  intros e. rewrite cycle_try_outcome.
  destruct (outcome (cycle_body cfg env model sensors n)) as [fl|e']; [done |].
  destruct e'; simpl; intros [= <-]; done.
Qed.

Lemma never_Exception_monitor cfg w model sensors :
  (forall n e, sleep (cycle_env w n) = Raise e -> is_Exception e = false) ->
  forall fuel c, never_Exception (monitor cfg w model sensors fuel c).
Proof.
  intros Hsleep. induction fuel as [|fuel IH]; intros c e; [done |].
  rewrite monitor_outcome.
  destruct (outcome (cycle_try _ _ _ _ _)) as [[|]|e'] eqn:Ht.
  - destruct (sleep (cycle_env w (c + 1))) as [[]|e'] eqn:Hs; [apply IH |].
    intros [= <-]. by apply (Hsleep (c + 1)).
  - done.
  - intros [= <-]. by apply never_Exception_cycle_try in Ht.
Qed.

Lemma never_Exception_finish ex : never_Exception (finish ex).
Proof. by destruct ex. Qed.

(** X13. No ordinary exception ends [main] unless [time.sleep] raised
    it: a failure of the model load, the registration, the image source, the
    detector, the broker, the collector or the memory reading is always
    contained, so when the sleeps raise no ordinary exception [main] returns
    or is ended by an interrupt. *)
Theorem X13_main_contains_exceptions cfg w fuel :
  (forall n e, sleep (cycle_env w n) = Raise e -> is_Exception e = false) ->
  match outcome (main cfg w fuel) with
  | Ok _ => True
  | Raise e => is_Exception e = false
  end.
Proof.
  intros Hsleep.
  assert (Hmain : never_Exception (main cfg w fuel)).
  { rewrite main_split.
    apply never_Exception_bind; [apply startup_never_Exception |].
    intros [[model sensors]|]; [| apply never_Exception_ret].
    apply never_Exception_bind; [by apply never_Exception_monitor |].
    apply never_Exception_finish. }
  destruct (outcome (main cfg w fuel)) as [ex|e] eqn:Ho; [done |].
  by apply Hmain.
Qed.

Lemma X13_witness :
  outcome (main default_config interrupted_sleep_world 3) = Raise KeyboardInterrupt /\
  match outcome (main default_config interrupted_sleep_world 3) with
  | Ok _ => True
  | Raise e => is_Exception e = false
  end.
Proof.
  split; [vm_compute; reflexivity |].
  apply (X13_main_contains_exceptions default_config interrupted_sleep_world 3).
  intros n e H. injection H as <-. reflexivity.
Defined.

(** ** Running after a failed registration *)

Lemma startup_no_handles cfg w e model sensors :
  is_Exception e = true ->
  sensor_new w (egg_settings cfg) = Raise e \/
  sensor_new w (chicken_settings cfg) = Raise e ->
  outcome (startup cfg w) = Ok (Some (model, sensors)) ->
  sensors = None.
Proof.
  unfold startup, load_model, setup_mqtt_sensors, new_Sensor, get_memory_usage,
    try_except, except_Exception, bind, call, log, raise, ret, outcome.
  intros He [Hnew | Hnew] Hrun; rewrite ?Hnew in Hrun;
    crunch; simpl in *; simplify_eq; congruence.
Qed.

Lemma startup_writes_nothing cfg w :
  count_if is_set_state (trace (startup cfg w)) = 0.
Proof.
  unfold startup, load_model, setup_mqtt_sensors, new_Sensor, get_memory_usage,
    try_except, except_Exception, bind, call, log, raise, ret, trace.
  crunch; done.
Qed.

Lemma silent_perform_detection_None env model image :
  silent is_set_state (perform_detection env model image None).
Proof.
  apply silent_count. rewrite perform_detection_trace, count_if_app.
  rewrite detection_body_cases.
  destruct (yolo_predict env model image) as [[|r rest]|e]; simpl.
  - done.
  - destruct (outcome (count_boxes _ _ _)) as [counts|e]; simpl; [done |].
    by destruct (is_Exception e).
  - by destruct (is_Exception e).
Qed.

Lemma silent_cycle_try_None cfg env model n :
  silent is_set_state (cycle_try cfg env model None n).
Proof.
  unfold cycle_try. apply silent_try.
  - unfold cycle_work, gc_step, get_memory_usage.
    apply silent_bind.
    + apply silent_bind; [by apply silent_call | intros rss].
      apply silent_bind; [by apply silent_log | intros _].
      apply silent_bind; [by apply silent_load_image | intros image].
      apply silent_bind; [| intros _; apply silent_ret].
      apply silent_perform_detection_None.
    + intros _. apply silent_bind; [| intros _; apply silent_ret].
      destruct (Nat.eqb _ _); [| apply silent_ret].
      apply silent_bind; [by apply silent_call | intros _].
      apply silent_bind; [by apply silent_call | intros rss].
      by apply silent_log.
  - intros e h. destruct e; simpl; intros [= <-]; unfold silent; simpl;
      by repeat constructor.
Qed.

Lemma silent_monitor_None cfg w model fuel :
  forall c, silent is_set_state (monitor cfg w model None fuel c).
Proof.
  induction fuel as [|fuel IH]; intros c; [apply silent_ret |].
  cbn [monitor]. apply silent_bind; [apply silent_cycle_try_None |].
  intros [|]; [| apply silent_ret].
  apply silent_bind; [| intros _; apply IH].
  unfold wait. apply silent_bind; [by apply silent_log | intros _].
  by apply silent_call.
Qed.

(** X14. When the creation of either sensor raises an ordinary
    exception, [main] never writes to a sensor, however long it runs; this
    includes the case where the egg sensor was created and only the chicken
    sensor failed. *)
Theorem X14_failed_registration_never_writes cfg w fuel e :
  is_Exception e = true ->
  sensor_new w (egg_settings cfg) = Raise e \/
  sensor_new w (chicken_settings cfg) = Raise e ->
  count_if is_set_state (trace (main cfg w fuel)) = 0.
Proof.
  intros He Hnew.
  rewrite main_split, trace_bind, count_if_app, startup_writes_nothing.
  destruct (outcome (startup cfg w)) as [[[model sensors]|]|e'] eqn:Hs;
    [| done | done].
  rewrite (startup_no_handles cfg w e model sensors He Hnew Hs).
  rewrite trace_bind, count_if_app.
  rewrite (proj1 (silent_count is_set_state _) (silent_monitor_None cfg w model fuel 0)).
  destruct (outcome (monitor cfg w model None fuel 0)) as [[|c]|e'']; done.
Qed.

Lemma X14_witness :
  sensor_new no_broker_world (egg_settings default_config) = Raise connection_refused /\
  count_if is_set_state (trace (main default_config no_broker_world 6)) = 0.
Proof.
  split; [reflexivity |].
  apply (X14_failed_registration_never_writes default_config no_broker_world 6
           connection_refused); [reflexivity | left; reflexivity].
Defined.

(** ** Nothing detected and detection failed *)

Lemma sensor_writes_app t1 t2 :
  sensor_writes (t1 ++ t2) = sensor_writes t1 ++ sensor_writes t2.
Proof.
  induction t1 as [|ev t1 IH]; [done |].
  destruct ev; simpl; by rewrite IH.
Qed.

Lemma sensor_writes_none t :
  count_if is_set_state t = 0 -> sensor_writes t = [].
Proof.
  induction t as [|ev t IH]; [done |].
  destruct ev; simpl; try done; apply IH.
Qed.

(** X15. With both handles and an answering broker, a detection that
    finds no box and a detection that raises an ordinary exception write
    the same thing: 0 to the egg sensor, then 0 to the chicken sensor.  The
    broker cannot tell an empty henhouse from a failed detection. *)
Theorem X15_empty_detection_looks_like_failure
    env1 env2 model image d se sc r rest ie ic e :
  d !! "eggs" = Some se ->
  d !! "chickens" = Some sc ->
  yolo_predict env1 model image = Ok (r :: rest) ->
  boxes r = [] ->
  names r !! ie = Some "egg" ->
  names r !! ic = Some "chicken" ->
  set_state env1 se 0 = Ok tt ->
  set_state env1 sc 0 = Ok tt ->
  outcome (detection_body env2 model image (Some d)) = Raise e ->
  is_Exception e = true ->
  set_state env2 se 0 = Ok tt ->
  set_state env2 sc 0 = Ok tt ->
  sensor_writes (trace (perform_detection env1 model image (Some d)))
    = [(se, 0); (sc, 0)] /\
  sensor_writes (trace (perform_detection env2 model image (Some d)))
    = [(se, 0); (sc, 0)].
Proof.
  intros Hse Hsc Hp Hb Hie Hic Ho1 Ho1' Hraise He Ho2 Ho2'. split.
  - assert (Hres : forall b, b ∈ boxes r -> is_Some (names r !! b)).
    { rewrite Hb. intros b Hin. by apply elem_of_nil in Hin. }
    destruct (detection_body_counts env1 model image (Some d) r rest Hp Hres)
      as (counts & Hbody & Hlook).
    assert (Hnone : forall nm, detections_named r nm = 0).
    { intros nm. unfold detections_named. by rewrite Hb. }
    assert (Hegg : counts !! "egg" = Some 0).
    { by rewrite Hlook, (zero_for_names_known _ _ _ Hie), Hnone. }
    assert (Hch : counts !! "chicken" = Some 0).
    { by rewrite Hlook, (zero_for_names_known _ _ _ Hic), Hnone. }
    rewrite perform_detection_trace, Hbody.
    rewrite (publish_both env1 d counts se sc 0 0 Hse Hsc Hegg Hch Ho1 Ho1').
    done.
  - rewrite perform_detection_trace, Hraise, He.
    destruct (detection_body_writes env2 model image (Some d)) as (_ & _ & Hnone).
    rewrite sensor_writes_app, (sensor_writes_none _ (Hnone e Hraise He)).
    assert (Ht : truthy (Some d) = true).
    { simpl. apply negb_true_iff, bool_decide_eq_false. intros ->.
      by rewrite lookup_empty in Hse. }
    rewrite Ht.
    rewrite (publish_both env2 d zero_counts se sc 0 0 Hse Hsc); try done;
      by rewrite zero_counts_lookup.
Qed.

Lemma X15_witness :
  sensor_writes (trace (perform_detection empty_coop_env the_model snapshot
                          (Some both_sensors)))
    = [({| sensor_settings := egg_settings default_config |}, 0);
       ({| sensor_settings := chicken_settings default_config |}, 0)] /\
  sensor_writes (trace (perform_detection stray_class_env the_model snapshot
                          (Some both_sensors)))
    = [({| sensor_settings := egg_settings default_config |}, 0);
       ({| sensor_settings := chicken_settings default_config |}, 0)].
Proof.
  apply (X15_empty_detection_looks_like_failure empty_coop_env stray_class_env
           the_model snapshot both_sensors
           {| sensor_settings := egg_settings default_config |}
           {| sensor_settings := chicken_settings default_config |}
           {| names := hen_names; boxes := [] |} [] 0%Z 1%Z (KeyError (KInt 7)));
    reflexivity.
Defined.

(** * The loop, iteration by iteration *)

(** A loop that is still running after [fuel] iterations has run, in
    order, the [try] statement at the counter values [c + 1] to [c + fuel],
    each followed by its sleep, and nothing else. *)
Lemma monitor_unrolls cfg w model sensors fuel :
  forall c c',
    outcome (monitor cfg w model sensors fuel c) = Ok (StillLooping c') ->
    trace (monitor cfg w model sensors fuel c) =
    flat_map (iteration_events cfg w model sensors) (seq (c + 1) fuel).
Proof.
  induction fuel as [|fuel IH]; intros c c'; [done |].
  rewrite monitor_outcome, monitor_trace.
  destruct (outcome (cycle_try _ _ _ _ _)) as [[|]|e]; [| done | done].
  destruct (sleep (cycle_env w (c + 1))) as [[]|e]; [| done].
  intros Hrest. cbn [seq flat_map]. unfold iteration_events at 1.
  rewrite (IH _ _ Hrest). replace (S (c + 1)) with (c + 1 + 1) by lia.
  by rewrite <- !app_assoc.
Qed.

(** An iteration logs its counter and then loads the image: the counter
    has its new value before the image is touched. *)
Lemma cycle_try_starts cfg env model sensors n rss :
  rss_at_start env = Ok rss ->
  exists t,
    trace (cycle_try cfg env model sensors n) =
    [EvMemoryInfo; EvLog DEBUG (MStartingCycle n rss)]
      ++ trace (load_image cfg env) ++ t.
Proof.
  intros Hrss.
  destruct (cycle_try_trace_prefix cfg env model sensors n) as [t Ht].
  rewrite Ht. destruct (load_image cfg env) as [tl [image|e]] eqn:Hload.
  - rewrite (cycle_work_loaded cfg env model sensors n rss tl image Hrss Hload).
    exists (trace (perform_detection env model image sensors) ++ t).
    unfold trace at 1 3. simpl. by rewrite <- ?app_assoc.
  - rewrite (cycle_work_load_fails cfg env model sensors n rss e Hrss);
      [| by rewrite Hload].
    rewrite Hload. exists t. unfold trace at 1 2. simpl. by rewrite <- ?app_assoc.
Qed.





(** C10.  The counter advances once for every iteration started, before
    the image is loaded.  A loop that is still running after [fuel]
    iterations has counter [c + fuel] and has run exactly the [try]
    statement at each of the counter values [c + 1] to [c + fuel], each
    followed by its sleep, whether these iterations completed or not; every
    iteration begins with the [try] statement at the incremented value, and
    logs that value before it loads the image.  When the iteration whose
    counter is a multiple of ten raises before the [if], no collection and
    no memory-after-collection record occur in that iteration nor in the
    nine that follow. *)
Theorem C10_counter_counts_attempts cfg w model sensors :
  (forall fuel c c',
     outcome (monitor cfg w model sensors fuel c) = Ok (StillLooping c') ->
     c' = c + fuel /\
     trace (monitor cfg w model sensors fuel c) =
       flat_map (iteration_events cfg w model sensors) (seq (c + 1) fuel)) /\
  (forall fuel c,
     exists t,
       trace (monitor cfg w model sensors (S fuel) c) =
       trace (cycle_try cfg (cycle_env w (c + 1)) model sensors (c + 1)) ++ t) /\
  (forall n rss,
     rss_at_start (cycle_env w n) = Ok rss ->
     exists t,
       trace (cycle_try cfg (cycle_env w n) model sensors n) =
       [EvMemoryInfo; EvLog DEBUG (MStartingCycle n rss)]
         ++ trace (load_image cfg (cycle_env w n)) ++ t) /\
  (forall fuel c e,
     (c + 1) mod 10 = 0 ->
     outcome (cycle_work cfg (cycle_env w (c + 1)) model sensors (c + 1)) = Raise e ->
     fuel <= 10 ->
     count_if is_gc_event (trace (monitor cfg w model sensors fuel c)) = 0).
Proof.
  split; [| split; [| split]].
  - intros fuel c c' Hrun. split.
    + by apply (monitor_counts_attempts cfg w model sensors fuel c c').
    + by apply (monitor_unrolls cfg w model sensors fuel c c').
  - intros fuel c. apply monitor_starts_with_cycle.
  - intros n rss. apply cycle_try_starts.
  - intros fuel c e. apply no_collection_after_failed_tenth.
Qed.

Lemma C10_witness :
  trace (monitor default_config missing_file_world the_model (Some both_sensors) 3 0) =
    flat_map (iteration_events default_config missing_file_world the_model
                (Some both_sensors)) [1; 2; 3] /\
  count_if is_failed_to_load_image
    (trace (monitor default_config missing_file_world the_model (Some both_sensors) 3 0))
    = 3 /\
  outcome (cycle_work default_config (cycle_env tenth_fails_world 10) the_model
             (Some both_sensors) 10) = Raise file_not_found /\
  count_if is_gc_event
    (trace (monitor default_config tenth_fails_world the_model (Some both_sensors) 10 9))
    = 0.
Proof.
  destruct (C10_counter_counts_attempts default_config missing_file_world the_model
              (Some both_sensors)) as (Hcount & _ & _ & _).
  destruct (Hcount 3 0 3) as [_ Htrace]; [vm_compute; reflexivity |].
  split; [exact Htrace |]. split; [vm_compute; reflexivity |].
  split; [vm_compute; reflexivity |].
  destruct (C10_counter_counts_attempts default_config tenth_fails_world the_model
              (Some both_sensors)) as (_ & _ & _ & Hskip).
  apply (Hskip 10 9 file_not_found); [reflexivity | vm_compute; reflexivity | lia].
Defined.
